(** * The banks ETL pipeline ([src/banks_project.py]) as a shallow embedding

    The pipeline extracts a table of banks from a web page, adds three
    currency columns, writes the table to a CSV file and to a database
    table, and logs every step.  The Python code is stateful and fallible:
    it is embedded here as functions of an explicit [world] in a
    state-and-exception monad.  Floats are IEEE binary64 values, computed
    with the specification functions of [SpecFloat]. *)

From Stdlib Require Import ZArith Ascii String List Bool Lia.
From Stdlib Require Import SpecFloat DecimalString.
From stdpp Require Import base option list gmap strings.

Local Open Scope Z_scope.
Local Open Scope string_scope.

(** ** Python floats: IEEE 754 binary64 *)

Module PyFloat.

Definition prec : Z := 53.
Definition emax : Z := 1024.

Abbreviation float := spec_float.

Definition fmul (x y : float) : float := SFmul prec emax x y.
Definition fdiv (x y : float) : float := SFdiv prec emax x y.
Definition fltb (x y : float) : bool := SFltb x y.

(** [int] to [float], round to nearest even. *)
Definition float_of_Z (n : Z) : float := binary_normalize prec emax n 0 false.

Definition fzero : float := S754_zero false.

(** [x > 0], as in [if mc_value > 0]. *)
Definition gt0 (x : float) : bool := fltb fzero x.

(** The float nearest to [(-1)^s * m * 10^e]: what [float(str)] returns
    for a decimal literal (the conversion is correctly rounded, ties to
    even; too large a value becomes an infinity, too small a zero). *)
Definition float_of_decimal (s : bool) (m : N) (e : Z) : float :=
  match m with
  | N0 => S754_zero s
  | Npos p =>
      match e with
      | Zneg k =>
          let '(q, e', l) :=
            SFdiv_core_binary prec emax (Zpos p) 0 (Zpos (10 ^ k)%positive) 0 in
          binary_round_aux prec emax s q e' l
      | _ => binary_round prec emax s (p * Z.to_pos (10 ^ e))%positive 0
      end
  end.

(** Integer nearest to [m / 2^k], ties to even. *)
Definition div2k_half_even (m : Z) (k : Z) : Z :=
  let d := 2 ^ k in
  let q := m / d in
  let r := m mod d in
  match Z.compare (2 * r) d with
  | Lt => q
  | Gt => q + 1
  | Eq => if Z.even q then q else q + 1
  end.

(** C's [rint] in the default rounding mode: the nearest integral value,
    ties to even; zeros, infinities and NaN are returned as they are and
    the sign is kept. *)
Definition rint (x : float) : float :=
  match x with
  | S754_finite s m e =>
      match e with
      | Zneg k =>
          match div2k_half_even (Zpos m) (Zpos k) with
          | Zpos n => binary_round prec emax s n 0
          | _ => S754_zero s
          end
      | _ => x
      end
  | _ => x
  end.

(** [10 ** decimals] as a float, for [decimals >= 0]. *)
Definition power_of_ten (decimals : nat) : float :=
  float_of_Z (10 ^ Z.of_nat decimals).

(** [np.round(x, decimals)] for [decimals > 0]: NumPy multiplies by
    [10 ** decimals], applies [rint] and divides again. *)
Definition np_round (x : float) (decimals : nat) : float :=
  match decimals with
  | O => rint x
  | _ => fdiv (rint (fmul x (power_of_ten decimals))) (power_of_ten decimals)
  end.

End PyFloat.
Export PyFloat.

(** ** Python strings

    Page text is modelled over the code points below 256, one [ascii] per
    code point. *)

Module PyStr.

Definition code (c : ascii) : N := N_of_ascii c.

(** [str.isspace] on one character (the white-space code points below
    256). *)
Definition isspace (c : ascii) : bool :=
  let n := code c in
  ((9 <=? n) && (n <=? 13) || (28 <=? n) && (n <=? 32)
   || (n =? 133) || (n =? 160))%N.

Fixpoint lstrip_with (f : ascii -> bool) (s : string) : string :=
  match s with
  | String c s' => if f c then lstrip_with f s' else s
  | EmptyString => EmptyString
  end.

Fixpoint rstrip_with (f : ascii -> bool) (s : string) : string :=
  match s with
  | String c s' =>
      match rstrip_with f s' with
      | EmptyString => if f c then EmptyString else String c EmptyString
      | r => String c r
      end
  | EmptyString => EmptyString
  end.

(** [s.strip()] *)
Definition strip (s : string) : string :=
  rstrip_with isspace (lstrip_with isspace s).

(** [s.replace(c, '')] for a one-character [c]. *)
Fixpoint remove_char (c : ascii) (s : string) : string :=
  match s with
  | String d s' =>
      if Ascii.eqb c d then remove_char c s' else String d (remove_char c s')
  | EmptyString => EmptyString
  end.

Definition newline : ascii := ascii_of_N 10.

End PyStr.
Export PyStr.

(** ** [float(s)] on a string

    CPython's [PyFloat_FromString]: the text is first made ASCII, digit
    group underscores are checked and dropped, white space is stripped on
    both sides and the remainder must be, as a whole, a decimal literal or
    one of [inf], [infinity], [nan].  [None] stands for the [ValueError]
    the call raises. *)

Module FloatParse.

Definition is_digit (c : ascii) : bool := ((48 <=? code c) && (code c <=? 57))%N.
Definition is_ascii (c : ascii) : bool := (code c <? 128)%N.

(** [Py_ISSPACE]: the white space of the C locale. *)
Definition c_isspace (c : ascii) : bool :=
  ((9 <=? code c) && (code c <=? 13) || (code c =? 32))%N.

(** [Py_TOLOWER] *)
Definition to_lower (c : ascii) : ascii :=
  if ((65 <=? code c) && (code c <=? 90))%N then ascii_of_N (code c + 32) else c.

Fixpoint string_forallb (f : ascii -> bool) (s : string) : bool :=
  match s with
  | String c s' => f c && string_forallb f s'
  | EmptyString => true
  end.

Fixpoint string_map (f : ascii -> ascii) (s : string) : string :=
  match s with
  | String c s' => String (f c) (string_map f s')
  | EmptyString => EmptyString
  end.

(** [_PyUnicode_TransformDecimalAndSpaceToASCII]: an all-ASCII string is
    returned as it is; otherwise white space becomes a blank and every
    other character above 127 a question mark. *)
Definition to_ascii (s : string) : string :=
  if string_forallb is_ascii s then s
  else string_map (fun c => if is_ascii c then c
                            else if isspace c then " "%char else "?"%char) s.

(** [_Py_string_to_number_with_underscores]: an underscore must stand
    between two digits; [prev] is the character read before. *)
Fixpoint drop_underscores (prev : ascii) (s : string) : option string :=
  match s with
  | String c s' =>
      if Ascii.eqb c "_" then
        if is_digit prev then drop_underscores c s' else None
      else if Ascii.eqb prev "_" && negb (is_digit c) then None
      else String c <$> drop_underscores c s'
  | EmptyString => if Ascii.eqb prev "_" then None else Some EmptyString
  end.

Fixpoint take_digits (s : string) : list ascii * string :=
  match s with
  | String c s' =>
      if is_digit c then let '(ds, r) := take_digits s' in (c :: ds, r)
      else ([], s)
  | EmptyString => ([], s)
  end.

Definition take_sign (s : string) : bool * string :=
  match s with
  | String "-" s' => (true, s')
  | String "+" s' => (false, s')
  | _ => (false, s)
  end.

Definition digits_value (ds : list ascii) : N :=
  fold_left (fun acc c => acc * 10 + (code c - 48))%N ds 0%N.

(** The exponent part: nothing, or [e]/[E], an optional sign and at least
    one digit, up to the end of the text. *)
Definition parse_exponent (s : string) : option Z :=
  match s with
  | EmptyString => Some 0
  | String c s' =>
      if Ascii.eqb (to_lower c) "e" then
        let '(neg, s1) := take_sign s' in
        match take_digits s1 with
        | (d :: ds, EmptyString) =>
            let v := Z.of_N (digits_value (d :: ds)) in
            Some (if neg then - v else v)
        | _ => None
        end
      else None
  end.

(** [_Py_parse_inf_or_nan], after the sign. *)
Definition parse_inf_or_nan (neg : bool) (s : string) : option float :=
  let l := string_map to_lower s in
  if String.eqb l "inf" || String.eqb l "infinity" then Some (S754_infinity neg)
  else if String.eqb l "nan" then Some S754_nan
  else None.

(** [PyOS_string_to_double] on the whole of [s]. *)
Definition string_to_double (s : string) : option float :=
  let '(neg, s1) := take_sign s in
  let '(ip, s2) := take_digits s1 in
  let '(fp, s3) :=
    match s2 with
    | String "." t => take_digits t
    | _ => ([], s2)
    end in
  match (ip ++ fp)%list with
  | [] => if String.eqb s1 s3 then parse_inf_or_nan neg s1 else None
  | ds =>
      e ← parse_exponent s3;
      Some (float_of_decimal neg (digits_value ds) (e - Z.of_nat (length fp)))
  end.

(** [float(s)] *)
Definition float_of_str (s : string) : option float :=
  t ← drop_underscores "000"%char (to_ascii s);
  string_to_double (rstrip_with c_isspace (lstrip_with c_isspace t)).

End FloatParse.
Export FloatParse.

(** ** Exceptions and results *)

Inductive os_errno := ENOENT | EEXIST | EISDIR | ENOTDIR | EACCES.

(** The exceptions the pipeline can meet; all of them are subclasses of
    [Exception].  [RequestException] stands for [requests.RequestException]
    and its subclasses, [OSError] for [FileNotFoundError] (ENOENT),
    [FileExistsError] (EEXIST), [IsADirectoryError] (EISDIR),
    [NotADirectoryError] (ENOTDIR) and [PermissionError] (EACCES). *)
Inductive exn :=
| ValueError (msg : string)
| KeyError (key : string)
| TypeError (msg : string)
| RequestException (msg : string)
| OSError (errno : os_errno) (filename : string)
| DatabaseError (msg : string).

Definition is_FileExistsError (e : exn) : bool :=
  match e with OSError EEXIST _ => true | _ => false end.

Definition is_OSError (e : exn) : bool :=
  match e with OSError _ _ => true | _ => false end.

Definition is_RequestException (e : exn) : bool :=
  match e with RequestException _ => true | _ => false end.

Definition quote (s : string) : string := "'" ++ s ++ "'".

Definition strerror (n : os_errno) : string :=
  match n with
  | ENOENT => "[Errno 2] No such file or directory"
  | EEXIST => "[Errno 17] File exists"
  | EISDIR => "[Errno 21] Is a directory"
  | ENOTDIR => "[Errno 20] Not a directory"
  | EACCES => "[Errno 13] Permission denied"
  end.

(** [str(e)], as the f-strings of the log messages format it. *)
Definition exn_str (e : exn) : string :=
  match e with
  | ValueError msg | TypeError msg | RequestException msg | DatabaseError msg => msg
  | KeyError key => quote key
  | OSError n f => strerror n ++ ": " ++ quote f
  end.

Inductive result (A : Type) :=
| Ok (a : A)
| Raise (e : exn).
Arguments Ok {A} a.
Arguments Raise {A} e.

(** ** Values and data frames *)

(** A cell of a data frame: text or a float. *)
Inductive pyval :=
| PStr (s : string)
| PFloat (x : float).

(** [x * y]: only two floats multiply. *)
Definition py_mul (x y : pyval) : result pyval :=
  match x, y with
  | PFloat a, PFloat b => Ok (PFloat (fmul a b))
  | PStr _, PStr _ => Raise (TypeError "can't multiply sequence by non-int of type 'str'")
  | _, _ => Raise (TypeError "can't multiply sequence by non-int of type 'float'")
  end.

(** [np.round(v, decimals)] *)
Definition py_np_round (v : pyval) (decimals : nat) : result pyval :=
  match v with
  | PFloat a => Ok (PFloat (np_round a decimals))
  | PStr _ => Raise (TypeError "ufunc 'multiply' did not contain a loop with signature matching types")
  end.

(** A [pd.DataFrame] with the default index: its columns in order, each
    with its label and its values. *)
Abbreviation DataFrame := (list (string * list pyval)).

Definition df_len (df : DataFrame) : nat :=
  match df with
  | (_, vs) :: _ => length vs
  | [] => O
  end.

(** All columns have the length of the index. *)
Definition df_wf (df : DataFrame) : Prop :=
  Forall (fun c => length c.2 = df_len df) df.

Fixpoint df_lookup (df : DataFrame) (c : string) : option (list pyval) :=
  match df with
  | (c', vs) :: df' => if String.eqb c' c then Some vs else df_lookup df' c
  | [] => None
  end.

(** [df[c]] *)
Definition df_getitem (df : DataFrame) (c : string) : result (list pyval) :=
  match df_lookup df c with
  | Some vs => Ok vs
  | None => Raise (KeyError c)
  end.

Fixpoint df_replace (df : DataFrame) (c : string) (vs : list pyval) : DataFrame :=
  match df with
  | (c', vs') :: df' =>
      if String.eqb c' c then (c', vs) :: df' else (c', vs') :: df_replace df' c vs
  | [] => []
  end.

(** [df[c] = vs] for a list [vs]: an existing column keeps its place, a new
    one goes last; the list must be as long as the index (a frame without
    columns takes any list). *)
Definition df_setitem (df : DataFrame) (c : string) (vs : list pyval)
  : result DataFrame :=
  if negb (Nat.eqb (length df) 0) && negb (Nat.eqb (length vs) (df_len df)) then
    Raise (ValueError "Length of values does not match length of index")
  else
    match df_lookup df c with
    | Some _ => Ok (df_replace df c vs)
    | None => Ok (df ++ [(c, vs)])%list
    end.

(** [pd.DataFrame(data, columns=columns)] for a non-empty list of rows:
    every row must have one entry per column label. *)
Definition DataFrame_new (data : list (list pyval)) (columns : list string)
  : result DataFrame :=
  if forallb (fun r => Nat.eqb (length r) (length columns)) data then
    Ok (imap (fun i c => (c, omap (fun r => r !! i) data)) columns)
  else
    Raise (ValueError "columns passed do not match the passed data").

(** The rows of a frame of bank records: label and USD value, row by row. *)
Definition df_records (df : DataFrame) (name_col usd_col : string)
  : option (list (pyval * pyval)) :=
  ns ← df_lookup df name_col;
  us ← df_lookup df usd_col;
  Some (zip ns us).

(** ** The world the pipeline runs in *)

(** A file-system entry: a directory, or a file with its text. *)
Inductive node :=
| Dir
| File (text : string).

(** What [requests.get] gives for a URL: a transport failure, or a response
    with its status code and body. *)
Inductive http_reply :=
| Unreachable (msg : string)
| Response (status_code : Z) (text : string).

(** A database behind a connection: whether the connection is still open,
    and the tables by name. *)
Record database := {
  db_open : bool;
  db_tables : gmap string DataFrame
}.

Record world := {
  (** the web, by URL *)
  w_web : string -> http_reply;
  (** the file system, by path *)
  w_fs : gmap string node;
  (** paths at which nothing may be created or written *)
  w_denied : gset string;
  (** [datetime.now().strftime(fmt)] at the n-th reading of the clock *)
  w_now : nat -> string -> string;
  w_ticks : nat;
  (** what was printed, oldest line first *)
  w_console : list string;
  (** the [DataFrame] objects; the identity of one is its index *)
  w_heap : list DataFrame;
  (** the databases, by connection *)
  w_dbs : gmap nat database
}.

Definition set_fs (f : gmap string node) (w : world) : world :=
  {| w_web := w_web w; w_fs := f; w_denied := w_denied w; w_now := w_now w;
     w_ticks := w_ticks w; w_console := w_console w; w_heap := w_heap w;
     w_dbs := w_dbs w |}.

Definition set_ticks (n : nat) (w : world) : world :=
  {| w_web := w_web w; w_fs := w_fs w; w_denied := w_denied w; w_now := w_now w;
     w_ticks := n; w_console := w_console w; w_heap := w_heap w;
     w_dbs := w_dbs w |}.

Definition set_console (c : list string) (w : world) : world :=
  {| w_web := w_web w; w_fs := w_fs w; w_denied := w_denied w; w_now := w_now w;
     w_ticks := w_ticks w; w_console := c; w_heap := w_heap w;
     w_dbs := w_dbs w |}.

Definition set_heap (h : list DataFrame) (w : world) : world :=
  {| w_web := w_web w; w_fs := w_fs w; w_denied := w_denied w; w_now := w_now w;
     w_ticks := w_ticks w; w_console := w_console w; w_heap := h;
     w_dbs := w_dbs w |}.

Definition set_dbs (d : gmap nat database) (w : world) : world :=
  {| w_web := w_web w; w_fs := w_fs w; w_denied := w_denied w; w_now := w_now w;
     w_ticks := w_ticks w; w_console := w_console w; w_heap := w_heap w;
     w_dbs := d |}.

(** ** The monad of the embedding: state and exceptions

    A computation takes the world and gives a value or a raised exception,
    together with the world it leaves behind (what was done before a
    [raise] stays done). *)

Definition M (A : Type) : Type := world -> result A * world.

Definition ret {A} (a : A) : M A := fun w => (Ok a, w).

Definition raise {A} (e : exn) : M A := fun w => (Raise e, w).

Definition bind {A B} (m : M A) (k : A -> M B) : M B :=
  fun w =>
    match m w with
    | (Ok a, w') => k a w'
    | (Raise e, w') => (Raise e, w')
    end.

(** [try: m  except Exception as e: h e] *)
Definition try_except {A} (m : M A) (h : exn -> M A) : M A :=
  fun w =>
    match m w with
    | (Ok a, w') => (Ok a, w')
    | (Raise e, w') => h e w'
    end.

Definition lift {A} (r : result A) : M A := fun w => (r, w).

Definition modify (f : world -> world) : M unit := fun w => (Ok tt, f w).

Declare Scope py_scope.
Delimit Scope py_scope with py.
Notation "'do' x <- m ;; k" := (bind m (fun x => k))
  (at level 10, x name, m at level 99, k at level 200) : py_scope.
Notation "'exec' m ;; k" := (bind m (fun _ => k))
  (at level 10, m at level 99, k at level 200) : py_scope.
Local Open Scope py_scope.

Definition rbind {A B} (r : result A) (k : A -> result B) : result B :=
  match r with
  | Ok a => k a
  | Raise e => Raise e
  end.

(** ** Paths ([posixpath]) *)

Module Path.

Definition is_sep (c : ascii) : bool := Ascii.eqb c "/".

Definition all_sep (s : string) : bool := string_forallb is_sep s.

(** [(p[:i], p[i:])] for [i = p.rfind('/') + 1]. *)
Fixpoint rsplit_sep (p : string) : string * string :=
  match p with
  | String c p' =>
      match rsplit_sep p' with
      | (EmptyString, _) =>
          if is_sep c then (String c EmptyString, p') else (EmptyString, p)
      | (h, t) => (String c h, t)
      end
  | EmptyString => (EmptyString, EmptyString)
  end.

(** [os.path.split]: the head loses its trailing slashes unless it is
    made of slashes only. *)
Definition split (p : string) : string * string :=
  let '(head, tail) := rsplit_sep p in
  if negb (String.eqb head "") && negb (all_sep head)
  then (rstrip_with is_sep head, tail)
  else (head, tail).

(** [os.path.dirname] *)
Definition dirname (p : string) : string := fst (split p).

Definition ends_with_sep (s : string) : bool :=
  match rsplit_sep s with
  | (String _ _, EmptyString) => true
  | _ => false
  end.

(** [os.path.join] of two components. *)
Definition join (a b : string) : string :=
  match b with
  | String "/" _ => b
  | _ => if String.eqb a "" || ends_with_sep a then a ++ b else a ++ "/" ++ b
  end.

End Path.

(** ** The file system

    A name is looked up as it is spelled, up to trailing slashes; the empty
    name denotes nothing, a name of slashes only the root, and a name
    without a directory part lies in the current directory, which exists. *)

Module FS.

Definition key (p : string) : string := rstrip_with Path.is_sep p.

Definition lookup (w : world) (p : string) : option node :=
  if String.eqb p "" then None
  else if Path.all_sep p then Some Dir
  else w_fs w !! key p.

(** The directory a name lies in. *)
Definition parent (w : world) (p : string) : option node :=
  let d := Path.dirname (key p) in
  if String.eqb d "" then Some Dir else lookup w d.

(** [os.path.exists] *)
Definition exists_ (p : string) : M bool :=
  fun w => (Ok (match lookup w p with Some _ => true | None => false end), w).

(** [os.path.isdir] *)
Definition isdir (p : string) : M bool :=
  fun w => (Ok (match lookup w p with Some Dir => true | _ => false end), w).

(** Creating the entry [p], which does not exist yet. *)
Definition create (p : string) (n : node) : M unit :=
  fun w =>
    match parent w p with
    | None => (Raise (OSError ENOENT p), w)
    | Some (File _) => (Raise (OSError ENOTDIR p), w)
    | Some Dir =>
        if bool_decide (key p ∈ w_denied w) then (Raise (OSError EACCES p), w)
        else (Ok tt, set_fs (<[key p := n]> (w_fs w)) w)
    end.

(** [os.mkdir] *)
Definition mkdir (p : string) : M unit :=
  fun w =>
    if String.eqb p "" then (Raise (OSError ENOENT p), w)
    else match lookup w p with
         | Some _ => (Raise (OSError EEXIST p), w)
         | None => create p Dir w
         end.

(** [os.makedirs(name, exist_ok=exist_ok)], following the library code;
    [fuel] bounds the recursion on the head of the path, which is
    shorter than the path. *)
Fixpoint makedirs_rec (fuel : nat) (name : string) (exist_ok : bool) : M unit :=
  match fuel with
  | O => raise (OSError ENOENT name)
  | S fuel' =>
      let '(head, tail) := Path.split name in
      let '(head, tail) :=
        if String.eqb tail "" then Path.split head else (head, tail) in
      let make :=
        try_except (mkdir name)
          (fun e =>
             do d <- isdir name ;;
             if is_OSError e && exist_ok && d then ret tt else raise e)%py in
      (if negb (String.eqb head "") && negb (String.eqb tail "") then
         do ex <- exists_ head ;;
         if ex then make
         else
           exec try_except (makedirs_rec fuel' head exist_ok)
                  (fun e => if is_FileExistsError e then ret tt else raise e) ;;
           if String.eqb tail "." then ret tt else make
       else make)%py
  end.

Definition makedirs (name : string) (exist_ok : bool) : M unit :=
  makedirs_rec (S (String.length name)) name exist_ok.

Inductive mode := Append | Truncate.

(** [with open(p, mode) as f: f.write(text)], for the modes ["a"] and
    ["w"]. *)
Definition write (p : string) (md : mode) (text : string) : M unit :=
  fun w =>
    if String.eqb p "" then (Raise (OSError ENOENT p), w)
    else match lookup w p with
         | Some Dir => (Raise (OSError EISDIR p), w)
         | Some (File old) =>
             if bool_decide (key p ∈ w_denied w) then (Raise (OSError EACCES p), w)
             else
               let new := match md with Append => old ++ text | Truncate => text end in
               (Ok tt, set_fs (<[key p := File new]> (w_fs w)) w)
         | None => create p (File text) w
         end.

(** Reading the text of the file at [p]. *)
Definition read (p : string) : M string :=
  fun w =>
    match lookup w p with
    | Some (File text) => (Ok text, w)
    | Some Dir => (Raise (OSError EISDIR p), w)
    | None => (Raise (OSError ENOENT p), w)
    end.

End FS.

(** ** Console, clock, heap *)

(** [print(line)] *)
Definition print (line : string) : M unit :=
  modify (fun w => set_console (w_console w ++ [line])%list w).

(** [datetime.now().strftime(fmt)] *)
Definition now_strftime (fmt : string) : M string :=
  fun w => (Ok (w_now w (w_ticks w) fmt), set_ticks (S (w_ticks w)) w).

(** A new [DataFrame] object; its identity is its place in the heap. *)
Definition alloc (df : DataFrame) : M nat :=
  fun w => (Ok (length (w_heap w)), set_heap (w_heap w ++ [df])%list w).

Definition deref (ref : nat) : M DataFrame :=
  fun w =>
    match w_heap w !! ref with
    | Some df => (Ok df, w)
    | None => (Raise (TypeError "not a DataFrame"), w)
    end.

Definition assign (ref : nat) (df : DataFrame) : M unit :=
  modify (fun w => set_heap (<[ref := df]> (w_heap w)) w).

Definition nl : string := String newline EmptyString.

(** [str(n)] for a natural number. *)
Definition str_of_nat (n : nat) : string :=
  DecimalString.NilZero.string_of_uint (Nat.to_uint n).

(** ** The database ([DataFrame.to_sql] on a [sqlite3] connection) *)

Module SQL.

Inductive if_exists := IfFail | IfReplace | IfAppend.

(** [CREATE TABLE]: the columns of the frame, no rows yet. *)
Definition create_table (frame : DataFrame) : DataFrame :=
  map (fun c => (c.1, [])) frame.

(** [INSERT]: the rows of the frame go after the rows of the table,
    column by column label. *)
Fixpoint insert_rows (tbl frame : DataFrame) : result DataFrame :=
  match tbl with
  | [] => Ok []
  | (c, vs) :: tbl' =>
      match df_lookup frame c with
      | Some new =>
          rbind (insert_rows tbl' frame) (fun t => Ok ((c, vs ++ new)%list :: t))
      | None => Raise (DatabaseError ("table has no column named " ++ c))
      end
  end.

Definition set_tables (con : nat) (t : gmap string DataFrame) : M unit :=
  modify (fun w =>
    set_dbs (<[con := {| db_open := true; db_tables := t |}]> (w_dbs w)) w).

(** The tables behind an open connection. *)
Definition tables (con : nat) : M (gmap string DataFrame) :=
  fun w =>
    match w_dbs w !! con with
    | Some db =>
        if db_open db then (Ok (db_tables db), w)
        else (Raise (DatabaseError "Cannot operate on a closed database."), w)
    | None => (Raise (DatabaseError "Cannot operate on a closed database."), w)
    end.

(** [frame.to_sql(name, con, if_exists=mode, index=False)]: an existing
    table is refused, dropped and made anew, or extended, by [mode]. *)
Definition to_sql (frame : DataFrame) (name : string) (con : nat)
    (mode : if_exists) : M unit :=
  (do t <- tables con ;;
   match t !! name, mode with
   | Some _, IfFail => raise (ValueError ("Table " ++ quote name ++ " already exists."))
   | Some old, IfAppend =>
       do new <- lift (insert_rows old frame) ;;
       set_tables con (<[name := new]> t)
   | _, _ =>
       exec set_tables con (delete name t) ;;
       do new <- lift (insert_rows (create_table frame) frame) ;;
       set_tables con (<[name := new]> (delete name t))
   end)%py.

End SQL.

(** ** Configuration ([config.py]) *)

Definition TABLE_NAME : string := "Largest_banks".
Definition TABLE_ATTRIBUTES : list string := ["Name"; "MC_USD_Billion"].
Definition LOG_FORMAT : string := "%Y-%b-%d-%H:%M:%S".

(** A dictionary from the pairs it was built from; a later pair overrides
    an earlier one with the same key. *)
Abbreviation dict := (list (pyval * pyval)).

(** [{'EUR': 0.93, 'GBP': 0.8, 'INR': 82.95}] *)
Definition DEFAULT_EXCHANGE_RATES : dict :=
  [ (PStr "EUR", PFloat (float_of_decimal false 93 (-2)));
    (PStr "GBP", PFloat (float_of_decimal false 8 (-1)));
    (PStr "INR", PFloat (float_of_decimal false 8295 (-2))) ].

Fixpoint dict_lookup (d : dict) (k : string) : option pyval :=
  match d with
  | [] => None
  | (k', v) :: d' =>
      match dict_lookup d' k with
      | Some v' => Some v'
      | None =>
          match k' with
          | PStr s => if String.eqb s k then Some v else None
          | PFloat _ => None
          end
      end
  end.

(** [d[k]] for a string key. *)
Definition dict_getitem (d : dict) (k : string) : result pyval :=
  match dict_lookup d k with
  | Some v => Ok v
  | None => Raise (KeyError k)
  end.

(** [rates_df.set_index('Currency').to_dict()['Rate']]: the [Rate] value
    of every row under its [Currency] value. *)
Definition rates_dict (rates_df : DataFrame) : result dict :=
  match df_lookup rates_df "Currency" with
  | None => Raise (KeyError "Currency")
  | Some ks =>
      match df_lookup rates_df "Rate" with
      | None => Raise (KeyError "Rate")
      | Some vs => Ok (zip ks vs)
      end
  end.

(** The text of one table cell, row by row: what [find_all('tr')] and
    [find_all(['td', 'th'])] with [.text] give for a table. *)
Abbreviation html_table := (list (list string)).

(** ** Row filter of [extract] *)

(** The body of the loop over the rows: [Some [name, mc_value]] when the
    row is appended to [data], [None] when it is passed over. *)
Definition extract_row (cols : list string) : option (list pyval) :=
  if (3 <=? length cols)%nat then
    let name := strip (nth 1 cols "") in
    let mc := remove_char "," (remove_char newline (strip (nth 2 cols ""))) in
    match float_of_str mc with
    | Some mc_value =>
        if gt0 mc_value then Some [PStr name; PFloat mc_value] else None
    | None => None
    end
  else None.

(** The loop: [data] grows by one row per kept table row. *)
Fixpoint extract_loop (rows : list (list string)) (data : list (list pyval))
  : list (list pyval) :=
  match rows with
  | [] => data
  | row :: rows' =>
      extract_loop rows'
        (match extract_row row with
         | Some r => data ++ [r]
         | None => data
         end)%list
  end.

(** The value of one converted cell: [np.round(x * exchange_rate[key], 2)]. *)
Definition convert (exchange_rate : dict) (key : string) (x : pyval)
  : result pyval :=
  rbind (dict_getitem exchange_rate key) (fun r =>
  rbind (py_mul x r) (fun v => py_np_round v 2)).

(** The list comprehension over a column, element by element. *)
Fixpoint comprehension (f : pyval -> result pyval) (l : list pyval)
  : result (list pyval) :=
  match l with
  | [] => Ok []
  | x :: l' => rbind (f x) (fun y => rbind (comprehension f l') (fun ys => Ok (y :: ys)))
  end.

(** ** The pipeline ([banks_project.py]) *)

Section Pipeline.

(** The directory [config.py] lies in. *)
Variable BASE_DIR : string.

(** [BeautifulSoup(text, 'html.parser').find_all('table', {'class':
    'wikitable'})]: the tables of a page, in page order. *)
Variable soup_wikitables : string -> list html_table.

(** [pd.read_csv] on the text of a file, and [DataFrame.to_csv(index=
    False)] as text. *)
Variable pd_read_csv : string -> result DataFrame.
Variable to_csv_text : DataFrame -> string.

Definition DATA_DIR : string := Path.join BASE_DIR "data".
Definition CSV_PATH : string := Path.join DATA_DIR "exchange_rate.csv".
Definition OUTPUT_CSV_PATH : string := Path.join DATA_DIR "Largest_banks_data.csv".
Definition LOG_PATH : string := Path.join BASE_DIR "code_log.txt".

Definition log_progress (message : string) (log_file : option string) : M unit :=
  let log_file := default LOG_PATH log_file in
  try_except
    (do stamp <- now_strftime LOG_FORMAT ;;
     exec FS.write log_file FS.Append (stamp ++ " : " ++ message ++ nl) ;;
     print ("[OK] " ++ message))
    (fun e => print ("Logging error: " ++ exn_str e)).

(** [requests.get(url, timeout=30)] *)
Definition requests_get (url : string) : M (Z * string) :=
  fun w =>
    match w_web w url with
    | Unreachable msg => (Raise (RequestException msg), w)
    | Response status_code text => (Ok (status_code, text), w)
    end.

(** [response.raise_for_status()] *)
Definition raise_for_status (response : Z * string) : M unit :=
  if ((400 <=? response.1) && (response.1 <? 600))%Z
  then raise (RequestException "HTTP error")
  else ret tt.

Definition extract (url : string) (table_attribs : list string) : M nat :=
  try_except
    (exec log_progress "Starting data extraction from Wikipedia..." None ;;
     do response <- requests_get url ;;
     exec raise_for_status response ;;
     let tables := soup_wikitables response.2 in
     match tables with
     | [] => raise (ValueError "Required tables not found")
     | target_table :: _ =>
         let rows := target_table in
         let data := extract_loop (tail rows) [] in
         match data with
         | [] => raise (ValueError "No valid data found")
         | _ =>
             do frame <- lift (DataFrame_new data table_attribs) ;;
             do df <- alloc frame ;;
             exec log_progress
               ("Successfully extracted " ++ str_of_nat (df_len frame) ++ " banks") None ;;
             ret df
         end
     end)
    (fun e =>
       if is_RequestException e then
         exec log_progress ("Connection error: " ++ exn_str e) None ;; raise e
       else
         exec log_progress ("Extraction error: " ++ exn_str e) None ;; raise e).

(** [df[column] = [np.round(x * exchange_rate[key], 2) for x in
    df['MC_USD_Billion']]], on the object [df] itself. *)
Definition add_currency (df : nat) (exchange_rate : dict) (column key : string)
  : M unit :=
  do frame <- deref df ;;
  do usd <- lift (df_getitem frame "MC_USD_Billion") ;;
  do vs <- lift (comprehension (convert exchange_rate key) usd) ;;
  do frame' <- lift (df_setitem frame column vs) ;;
  assign df frame'.

Definition transform (df : nat) (csv_path : string) : M nat :=
  try_except
    (exec log_progress "Starting data transformation..." None ;;
     do found <- FS.exists_ csv_path ;;
     do exchange_rate <-
       (if found then
          do text <- FS.read csv_path ;;
          do rates_df <- lift (pd_read_csv text) ;;
          lift (rates_dict rates_df)
        else
          exec log_progress "Exchange rates CSV not found, using default rates" None ;;
          ret DEFAULT_EXCHANGE_RATES) ;;
     exec add_currency df exchange_rate "MC_GBP_Billion" "GBP" ;;
     exec add_currency df exchange_rate "MC_EUR_Billion" "EUR" ;;
     exec add_currency df exchange_rate "MC_INR_Billion" "INR" ;;
     exec log_progress "Data transformation complete. Initiating Loading process" None ;;
     ret df)
    (fun e => exec log_progress ("Transformation error: " ++ exn_str e) None ;; raise e).

Definition load_to_csv (df : nat) (output_path : string) : M unit :=
  try_except
    (exec FS.makedirs (Path.dirname output_path) true ;;
     do frame <- deref df ;;
     exec FS.write output_path FS.Truncate (to_csv_text frame) ;;
     log_progress ("Data saved to CSV file: " ++ output_path) None)
    (fun e => exec log_progress ("CSV save error: " ++ exn_str e) None ;; raise e).

Definition load_to_db (df : nat) (sql_connection : nat) (table_name : string)
  : M unit :=
  try_except
    (do frame <- deref df ;;
     exec SQL.to_sql frame table_name sql_connection SQL.IfReplace ;;
     log_progress "Data loaded to Database as a table, Executing queries" None)
    (fun e => exec log_progress ("Database load error: " ++ exn_str e) None ;; raise e).

End Pipeline.

(** ** What a run leaves behind *)

(** The world after [log_progress]. *)
Definition logged (BASE_DIR : string) (message : string) (log_file : option string)
    (w : world) : world :=
  (log_progress BASE_DIR message log_file w).2.

(** The outcome of [extract]: the frame it builds, or the exception. *)
Definition extract_outcome (soup_wikitables : string -> list html_table)
    (url : string) (table_attribs : list string) (w : world) : result DataFrame :=
  match w_web w url with
  | Unreachable msg => Raise (RequestException msg)
  | Response status_code text =>
      if ((400 <=? status_code) && (status_code <? 600))%Z
      then Raise (RequestException "HTTP error")
      else
        match soup_wikitables text with
        | [] => Raise (ValueError "Required tables not found")
        | target_table :: _ =>
            match omap extract_row (tail target_table) with
            | [] => Raise (ValueError "No valid data found")
            | data => DataFrame_new data table_attribs
            end
        end
  end.

(** One conversion step on a frame. *)
Definition add_currency_frame (frame : DataFrame) (exchange_rate : dict)
    (column key : string) : result DataFrame :=
  rbind (df_getitem frame "MC_USD_Billion") (fun usd =>
  rbind (comprehension (convert exchange_rate key) usd) (fun vs =>
  df_setitem frame column vs)).

(** The conversion steps of [transform], in order: new column and
    currency key. *)
Definition currency_steps : list (string * string) :=
  [ ("MC_GBP_Billion", "GBP"); ("MC_EUR_Billion", "EUR"); ("MC_INR_Billion", "INR") ].

(** The steps one after the other on a frame: how they end, and the frame
    as the last step that went through left it. *)
Fixpoint add_currencies (frame : DataFrame) (exchange_rate : dict)
    (steps : list (string * string)) : result unit * DataFrame :=
  match steps with
  | [] => (Ok tt, frame)
  | (column, key) :: steps' =>
      match add_currency_frame frame exchange_rate column key with
      | Ok frame' => add_currencies frame' exchange_rate steps'
      | Raise e => (Raise e, frame)
      end
  end.

Arguments add_currencies : simpl never.

(** The exchange rates [transform] works with in the world [w]: read from
    the file at [csv_path] when something is there, the defaults if not. *)
Definition rates_outcome (pd_read_csv : string -> result DataFrame)
    (csv_path : string) (w : world) : result dict :=
  match FS.lookup w csv_path with
  | Some (File text) => rbind (pd_read_csv text) rates_dict
  | Some Dir => Raise (OSError EISDIR csv_path)
  | None => Ok DEFAULT_EXCHANGE_RATES
  end.

Definition msg_start : string := "Starting data transformation...".
Definition msg_default_rates : string :=
  "Exchange rates CSV not found, using default rates".
Definition msg_complete : string :=
  "Data transformation complete. Initiating Loading process".

(** A column of converted values: [np.round(u * r, 2)] for every USD
    value [u], in order. *)
Definition converted (r : float) (xs : list float) : list pyval :=
  map (fun u => PFloat (np_round (fmul u r) 2)) xs.


(** A frame of bank records: the USD column holds the floats [xs] and all
    columns are as long as the index. *)
Definition usd_frame (frame : DataFrame) (xs : list float) : Prop :=
  df_lookup frame "MC_USD_Billion" = Some (PFloat <$> xs) /\ df_wf frame.

(** The databases after [to_sql] with [if_exists='replace']: behind an open
    connection the table is dropped and, if the rows go in, made anew. *)
Definition replaced (frame : DataFrame) (name : string) (con : nat)
    (dbs : gmap nat database) : gmap nat database :=
  match dbs !! con with
  | Some db =>
      if db_open db then
        let t := delete name (db_tables db) in
        match SQL.insert_rows (SQL.create_table frame) frame with
        | Ok new => <[con := {| db_open := true; db_tables := <[name := new]> t |}]> dbs
        | Raise _ => <[con := {| db_open := true; db_tables := t |}]> dbs
        end
      else dbs
  | None => dbs
  end.

(** The market-cap text of a row as [float] gets it. *)
Definition mc_text (cols : list string) : string :=
  remove_char "," (remove_char newline (strip (nth 2 cols ""))).

(** A row whose market cap is not a number, or not a positive one. *)
Definition bad_market_cap (cols : list string) : Prop :=
  match float_of_str (mc_text cols) with
  | Some v => gt0 v = false
  | None => True
  end.

Definition is_float (v : pyval) : Prop := exists x, v = PFloat x.

(** The frame of the kept rows of a table body under two column labels:
    the names, then the values, both in row order. *)
Definition extracted_frame (rows : list (list string)) (a b : string) : DataFrame :=
  [ (a, omap (fun r : list pyval => r !! 0%nat) (omap extract_row rows));
    (b, omap (fun r : list pyval => r !! 1%nat) (omap extract_row rows)) ].

(** A world to run examples in: every URL gives [reply], the file system
    holds [fs], nothing is denied, the clock stands at the snapshot date,
    and no object or database exists yet. *)
Definition sample_world (reply : http_reply) (fs : gmap string node) : world :=
  {| w_web := fun _ => reply; w_fs := fs; w_denied := ∅;
     w_now := fun _ _ => "2023-Sep-08-09:16:35"; w_ticks := 0;
     w_console := []; w_heap := []; w_dbs := ∅ |}.

(** The table of the extraction scenario, under a header row. *)
Definition scenario_rows (r1 r2 r3 r4 : string) : list (list string) :=
  [ [r1; "Bank A"; "100"]; [r2; "Bank B"; "abc"];
    [r3; "Bank C"; "-5"]; [r4; "Bank D"; "50"] ].

(** A page table for the scenario, and a frame of two bank records. *)
Definition sample_table : html_table :=
  ["Rank"; "Bank name"; "Market cap (US$ billion)"] :: scenario_rows "1" "2" "3" "4".

Definition sample_frame : DataFrame :=
  [ ("Name", [PStr "Bank A"; PStr "Bank D"]);
    ("MC_USD_Billion", [PFloat (float_of_Z 100); PFloat (float_of_Z 50)]) ].

(** A frame with the two columns and no record. *)
Definition empty_frame : DataFrame := [ ("Name", []); ("MC_USD_Billion", []) ].

(** A world whose only object is [frame], with one open, empty database. *)
Definition world_with (frame : DataFrame) (fs : gmap string node) : world :=
  set_dbs {[ 0%nat := {| db_open := true; db_tables := ∅ |} ]}
    (set_heap [frame] (sample_world (Unreachable "offline") fs)).


(** ** Queries, the orchestrator and the runner script *)

Definition WIKIPEDIA_URL : string :=
  "https://web.archive.org/web/20230908091635/https://en.wikipedia.org/wiki/List_of_largest_banks".

Definition DB_NAME : string := "Banks.db".

(** [frame.head()]: the first five rows. *)
Definition df_head (frame : DataFrame) : DataFrame :=
  map (fun c => (c.1, take 5 c.2)) frame.

(** [sql_connection.close()] *)
Definition sql_close (con : nat) : M unit :=
  modify (fun w =>
    match w_dbs w !! con with
    | Some db =>
        set_dbs (<[con := {| db_open := false; db_tables := db_tables db |}]> (w_dbs w)) w
    | None => w
    end).


Section Orchestration.

Variable BASE_DIR : string.
Variable soup_wikitables : string -> list html_table.
Variable pd_read_csv : string -> result DataFrame.
Variable to_csv_text : DataFrame -> string.

(** [sqlite3.connect(name)]: a connection, or the error of opening the
    database. *)
Variable sqlite3_connect : string -> M nat.

(** [pd.read_sql(query, con)] on the tables behind an open connection: the
    result set or the engine's error, and the tables as the statement
    leaves them. *)
Variable pd_read_sql :
  string -> gmap string DataFrame -> result DataFrame * gmap string DataFrame.

(** [str(frame)], as [print] shows a frame. *)
Variable df_str : DataFrame -> string.

Definition run_query (query_statement : string) (sql_connection : nat) : M nat :=
  try_except
    (exec print (nl ++ "Running Query: " ++ query_statement ++ nl) ;;
     do tables <- SQL.tables sql_connection ;;
     exec SQL.set_tables sql_connection (pd_read_sql query_statement tables).2 ;;
     do frame <- lift (pd_read_sql query_statement tables).1 ;;
     do query_output <- alloc frame ;;
     exec print (df_str frame) ;;
     exec log_progress BASE_DIR "Query executed successfully" None ;;
     ret query_output)
    (fun e =>
       exec log_progress BASE_DIR ("Query execution error: " ++ exn_str e) None ;;
       raise e).

(** [print(df.head())] *)
Definition print_head (df : nat) : M unit :=
  do frame <- deref df ;;
  print (df_str (df_head frame)).

Definition main : M unit :=
  try_except
    (exec log_progress BASE_DIR
       "ETL Process initialization complete. Starting ETL pipeline..." None ;;
     do sql_connection <- sqlite3_connect DB_NAME ;;
     exec log_progress BASE_DIR "SQL Connection initiated" None ;;
     exec log_progress BASE_DIR "Step 1: Data Extraction" None ;;
     do extracted_data <-
       extract BASE_DIR soup_wikitables WIKIPEDIA_URL TABLE_ATTRIBUTES ;;
     exec print (nl ++ "Extracted Data:") ;;
     exec print_head extracted_data ;;
     exec log_progress BASE_DIR "Step 2: Data Transformation" None ;;
     do transformed_data <-
       transform BASE_DIR pd_read_csv extracted_data (CSV_PATH BASE_DIR) ;;
     exec print (nl ++ "Transformed Data:") ;;
     exec print_head transformed_data ;;
     exec log_progress BASE_DIR "Step 3: Data Loading" None ;;
     exec load_to_csv BASE_DIR to_csv_text transformed_data (OUTPUT_CSV_PATH BASE_DIR) ;;
     exec load_to_db BASE_DIR transformed_data sql_connection TABLE_NAME ;;
     exec log_progress BASE_DIR "Step 4: Running Queries" None ;;
     exec run_query "SELECT * FROM Largest_banks" sql_connection ;;
     exec run_query "SELECT AVG(MC_GBP_Billion) FROM Largest_banks" sql_connection ;;
     exec run_query "SELECT Name FROM Largest_banks LIMIT 5" sql_connection ;;
     exec sql_close sql_connection ;;
     log_progress BASE_DIR "ETL Process completed successfully!" None)
    (fun e =>
       exec log_progress BASE_DIR ("ETL Process failed: " ++ exn_str e) None ;;
       raise e).


End Orchestration.




(** Libraries to run [main] with in examples: [connect] gives connection 0
    to a new, empty database; a query gives the table [Largest_banks] and
    changes nothing; every frame prints as one placeholder line. *)
Definition sample_connect : string -> M nat :=
  fun _ w =>
    (Ok 0%nat,
     set_dbs (<[0%nat := {| db_open := true; db_tables := ∅ |}]> (w_dbs w)) w).

Definition sample_read_sql (query : string) (t : gmap string DataFrame)
    : result DataFrame * gmap string DataFrame :=
  (match t !! "Largest_banks" with
   | Some frame => Ok frame
   | None => Raise (DatabaseError "no such table: Largest_banks")
   end, t).

Definition sample_df_str : DataFrame -> string := fun _ => "<DataFrame>".

(** A world with two pages, at the URLs "a" and "b". *)
Definition two_pages (page_a page_b : string) : world :=
  {| w_web := fun url => if String.eqb url "a" then Response 200 page_a
                         else Response 200 page_b;
     w_fs := ∅; w_denied := ∅;
     w_now := fun _ _ => "2023-Sep-08-09:16:35"; w_ticks := 0;
     w_console := []; w_heap := []; w_dbs := ∅ |}.

(** The tables of a page, by its text: page "A" has the scenario table,
    any other page the same rows under another header. *)
Definition two_soups (text : string) : list html_table :=
  if String.eqb text "A" then [sample_table]
  else [ ["#"; "Bank"; "Cap"] :: scenario_rows "1" "2" "3" "4" ].


Definition msg_init : string :=
  "ETL Process initialization complete. Starting ETL pipeline...".

(** A computation that leaves the databases alone. *)
Definition same_dbs {A} (m : M A) : Prop :=
  forall w, w_dbs (m w).2 = w_dbs w.

(** Between two worlds only the file at [log] has changed, and it has
    only grown: every other entry of the file system is as it was, a log
    file keeps its old text as a prefix, and a directory stays one. *)
Definition log_only (log : string) (w w' : world) : Prop :=
  (forall k, k <> FS.key log -> w_fs w' !! k = w_fs w !! k)
  /\ (forall old, w_fs w !! FS.key log = Some (File old) ->
        exists more, w_fs w' !! FS.key log = Some (File (old ++ more)))
  /\ (w_fs w !! FS.key log = Some Dir -> w_fs w' !! FS.key log = Some Dir).

(** A computation that, from any world, writes to the log file only. *)
Definition writes_log_only {A} (log : string) (m : M A) : Prop :=
  forall w, log_only log w (m w).2.

(** A name without a slash. *)
Definition no_sep (s : string) : bool :=
  string_forallb (fun c => negb (Path.is_sep c)) s.

(** * Properties *)

Section Facts.

Variable BASE_DIR : string.
Variable soup_wikitables : string -> list html_table.
Variable pd_read_csv : string -> result DataFrame.
Variable to_csv_text : DataFrame -> string.

(** *** The file system *)

Lemma write_cases p md text w :
  (exists fs', FS.write p md text w = (Ok tt, set_fs fs' w) /\
               forall k, k <> FS.key p -> fs' !! k = w_fs w !! k)
  \/ (exists e, FS.write p md text w = (Raise e, w)).
Proof.
  unfold FS.write, FS.create.
  destruct (String.eqb p ""); [right; eauto |].
  destruct (FS.lookup w p) as [[|old]|].
  - right; eauto.
  - case_bool_decide; [right; eauto |].
    left. eexists. split; [reflexivity |].
    intros k Hk. by rewrite lookup_insert_ne.
  - destruct (FS.parent w p) as [[|?]|]; try (right; eauto; fail).
    case_bool_decide; [right; eauto |].
    left. eexists. split; [reflexivity |].
    intros k Hk. by rewrite lookup_insert_ne.
Qed.

(** *** Logging *)

Lemma log_progress_total message log_file w :
  log_progress BASE_DIR message log_file w = (Ok tt, logged BASE_DIR message log_file w).
Proof.
  unfold logged, log_progress, try_except, bind, now_strftime.
  destruct (write_cases (default (LOG_PATH BASE_DIR) log_file) FS.Append
              (w_now w (w_ticks w) LOG_FORMAT ++ " : " ++ message ++ nl)
              (set_ticks (S (w_ticks w)) w)) as [(fs' & -> & _) | (e & ->)];
    reflexivity.
Qed.

Lemma logged_frame message log_file w :
  w_heap (logged BASE_DIR message log_file w) = w_heap w
  /\ w_dbs (logged BASE_DIR message log_file w) = w_dbs w
  /\ w_web (logged BASE_DIR message log_file w) = w_web w
  /\ w_denied (logged BASE_DIR message log_file w) = w_denied w.
Proof.
  unfold logged, log_progress, try_except, bind, now_strftime.
  destruct (write_cases (default (LOG_PATH BASE_DIR) log_file) FS.Append
              (w_now w (w_ticks w) LOG_FORMAT ++ " : " ++ message ++ nl)
              (set_ticks (S (w_ticks w)) w)) as [(fs' & -> & _) | (e & ->)];
    simpl; auto.
Qed.

Lemma logged_fs message log_file w k :
  k <> FS.key (default (LOG_PATH BASE_DIR) log_file) ->
  w_fs (logged BASE_DIR message log_file w) !! k = w_fs w !! k.
Proof.
  intros Hk.
  unfold logged, log_progress, try_except, bind, now_strftime.
  destruct (write_cases (default (LOG_PATH BASE_DIR) log_file) FS.Append
              (w_now w (w_ticks w) LOG_FORMAT ++ " : " ++ message ++ nl)
              (set_ticks (S (w_ticks w)) w)) as [(fs' & -> & Hfs) | (e & ->)];
    simpl; auto.
Qed.

(** *** Extraction *)

Lemma extract_loop_omap rows data :
  extract_loop rows data = (data ++ omap extract_row rows)%list.
Proof.
  revert data. induction rows as [|row rows IH]; intros data; simpl.
  - by rewrite app_nil_r.
  - rewrite IH. destruct (extract_row row); [by rewrite <- app_assoc | done].
Qed.

Lemma bad_market_cap_skipped cols :
  bad_market_cap cols -> extract_row cols = None.
Proof.
  unfold bad_market_cap, extract_row, mc_text.
  destruct (3 <=? length cols)%nat; [| done].
  destruct (float_of_str _) as [v|]; [| done].
  by intros ->.
Qed.

(** [extract] returns the frame of [extract_outcome] as a new object, or
    raises its exception; nothing else on the heap changes. *)
Lemma extract_run url table_attribs w :
  exists w',
    extract BASE_DIR soup_wikitables url table_attribs w
    = (match extract_outcome soup_wikitables url table_attribs w with
       | Ok _ => Ok (length (w_heap w))
       | Raise e => Raise e
       end, w')
    /\ w_heap w'
       = match extract_outcome soup_wikitables url table_attribs w with
         | Ok frame => (w_heap w ++ [frame])%list
         | Raise _ => w_heap w
         end
    /\ w_dbs w' = w_dbs w.
Proof.
  unfold extract, extract_outcome, try_except, bind.
  rewrite log_progress_total.
  set (w1 := logged BASE_DIR _ None w).
  destruct (logged_frame "Starting data extraction from Wikipedia..." None w)
    as (Hh & Hd & Hw & _). fold w1 in Hh, Hd, Hw.
  unfold requests_get. rewrite Hw.
  destruct (w_web w url) as [msg | status_code text]; simpl.
  { rewrite log_progress_total. eexists; split; [reflexivity |].
    destruct (logged_frame ("Connection error: " ++ msg) None w1) as (-> & -> & _).
    auto. }
  unfold raise_for_status; simpl.
  destruct ((400 <=? status_code) && (status_code <? 600))%Z; simpl.
  { rewrite log_progress_total. eexists; split; [reflexivity |].
    destruct (logged_frame ("Connection error: " ++ "HTTP error") None w1)
      as (-> & -> & _).
    auto. }
  destruct (soup_wikitables text) as [| target_table others]; simpl.
  { rewrite log_progress_total. eexists; split; [reflexivity |].
    destruct (logged_frame ("Extraction error: " ++ "Required tables not found") None w1)
      as (-> & -> & _).
    auto. }
  rewrite extract_loop_omap; simpl.
  destruct (omap extract_row (tail target_table)) as [| r data]; simpl.
  { rewrite log_progress_total. eexists; split; [reflexivity |].
    destruct (logged_frame ("Extraction error: " ++ "No valid data found") None w1)
      as (-> & -> & _).
    auto. }
  unfold lift.
  destruct (DataFrame_new (r :: data) table_attribs) as [frame | e]; simpl.
  - unfold alloc. rewrite log_progress_total. simpl.
    eexists; split; [by rewrite Hh |].
    match goal with |- context [logged BASE_DIR ?m ?f ?x] =>
      destruct (logged_frame m f x) as (-> & -> & _) end.
    simpl. auto.
  - destruct (is_RequestException e); rewrite log_progress_total;
      (eexists; split; [reflexivity |]);
      match goal with |- context [logged BASE_DIR ?m ?f ?x] =>
        destruct (logged_frame m f x) as (-> & -> & _) end; auto.
Qed.

Lemma extract_row_shape cols r :
  extract_row cols = Some r ->
  exists x, r = [PStr (strip (nth 1 cols "")); PFloat x] /\ gt0 x = true.
Proof.
  unfold extract_row.
  destruct (3 <=? length cols)%nat; [| done].
  destruct (float_of_str _) as [v|]; [| done].
  destruct (gt0 v) eqn:Hv; [| done].
  intros [= <-]. eauto.
Qed.

Lemma DataFrame_new_extracted rows a b :
  DataFrame_new (omap extract_row rows) [a; b] = Ok (extracted_frame rows a b).
Proof.
  unfold DataFrame_new, extracted_frame.
  replace (forallb _ (omap extract_row rows)) with true; [done |].
  symmetry. apply forallb_forall. intros r Hr.
  apply list_elem_of_In, list_elem_of_omap in Hr as (cols & _ & Hc).
  apply extract_row_shape in Hc as (x & -> & _). done.
Qed.




Lemma extracted_lengths rows :
  length (omap (fun r : list pyval => r !! 0%nat) (omap extract_row rows))
  = length (omap (fun r : list pyval => r !! 1%nat) (omap extract_row rows)).
Proof.
  induction rows as [| cols rows IH]; simpl; [done |].
  destruct (extract_row cols) as [r|] eqn:E; [| done].
  apply extract_row_shape in E as (x & -> & Hx). simpl. by f_equal.
Qed.

(** C1. A row whose market cap is not a number or not positive is passed
    over and extraction goes on: when the page is fetched, its first table
    has the body [rows] and some row of it is valid, [extract] returns a
    new frame holding exactly the kept rows in page order; a bad row
    contributes nothing to it; and for the rows Bank A 100, Bank B abc,
    Bank C -5, Bank D 50 the frame holds Bank A 100.0 and Bank D 50.0. *)
Theorem extract_skips_bad_rows url a b w status_code text header rows others :
  w_web w url = Response status_code text ->
  ((400 <=? status_code) && (status_code <? 600))%Z = false ->
  soup_wikitables text = (header :: rows) :: others ->
  (exists cols, cols ∈ rows /\ is_Some (extract_row cols)) ->
  (exists w',
      extract BASE_DIR soup_wikitables url [a; b] w = (Ok (length (w_heap w)), w')
      /\ w_heap w' = (w_heap w ++ [extracted_frame rows a b])%list)
  /\ (forall rows1 row rows2,
        rows = (rows1 ++ row :: rows2)%list -> bad_market_cap row ->
        extracted_frame rows a b = extracted_frame (rows1 ++ rows2) a b)
  /\ (forall r1 r2 r3 r4,
        rows = scenario_rows r1 r2 r3 r4 ->
        extracted_frame rows a b
        = [ (a, [PStr "Bank A"; PStr "Bank D"]);
            (b, [PFloat (float_of_Z 100); PFloat (float_of_Z 50)]) ]).
Proof.
  intros Hweb Hst Hsoup (cols & Hin & [r Hr]).
  split; [| split].
  - destruct (extract_run url [a; b] w) as (w' & Hrun & Hheap & _).
    assert (extract_outcome soup_wikitables url [a; b] w
            = Ok (extracted_frame rows a b)) as Hout.
    { unfold extract_outcome. rewrite Hweb, Hst, Hsoup. simpl.
      rewrite <- DataFrame_new_extracted.
      destruct (omap extract_row rows) eqn:E; [| done].
      assert (r ∈ omap extract_row rows) as Hr'
        by (apply list_elem_of_omap; eauto).
      rewrite E in Hr'. by apply elem_of_nil in Hr'. }
    rewrite Hout in Hrun, Hheap. eauto.
  - intros rows1 row rows2 -> Hbad.
    unfold extracted_frame.
    rewrite !omap_app. simpl.
    by rewrite (bad_market_cap_skipped row Hbad).
  - intros r1 r2 r3 r4 ->. vm_compute. reflexivity.
Qed.

(** C3. When the page is fetched and has a table but none of its data rows
    passes the filter, [extract] raises [ValueError("No valid data found")]
    (the failure the specification calls DataNotFoundError); no frame is
    made. *)
Theorem extract_no_valid_rows_fails url table_attribs w status_code text
    target_table others :
  w_web w url = Response status_code text ->
  ((400 <=? status_code) && (status_code <? 600))%Z = false ->
  soup_wikitables text = target_table :: others ->
  (forall cols, cols ∈ tail target_table -> extract_row cols = None) ->
  exists w',
    extract BASE_DIR soup_wikitables url table_attribs w
    = (Raise (ValueError "No valid data found"), w')
    /\ w_heap w' = w_heap w.
Proof.
  intros Hweb Hst Hsoup Hnone.
  destruct (extract_run url table_attribs w) as (w' & Hrun & Hheap & _).
  assert (extract_outcome soup_wikitables url table_attribs w
          = Raise (ValueError "No valid data found")) as Hout.
  { unfold extract_outcome. rewrite Hweb, Hst, Hsoup.
    destruct (omap extract_row (tail target_table)) as [| r data] eqn:E; [done |].
    assert (r ∈ omap extract_row (tail target_table)) as Hr by (rewrite E; left).
    apply list_elem_of_omap in Hr as (cols & Hin & Hc).
    by rewrite (Hnone cols Hin) in Hc. }
  rewrite Hout in Hrun, Hheap. eauto.
Qed.


(** *** Frames *)

Lemma add_currencies_cons frame exchange_rate column key steps :
  add_currencies frame exchange_rate ((column, key) :: steps)
  = match add_currency_frame frame exchange_rate column key with
    | Ok frame' => add_currencies frame' exchange_rate steps
    | Raise e => (Raise e, frame)
    end.
Proof. reflexivity. Qed.

Lemma add_currencies_nil frame exchange_rate :
  add_currencies frame exchange_rate [] = (Ok tt, frame).
Proof. reflexivity. Qed.


Lemma df_replace_lookup_eq (f : DataFrame) c vs :
  is_Some (df_lookup f c) -> df_lookup (df_replace f c vs) c = Some vs.
Proof.
  induction f as [| [c0 v0] f IH]; simpl; [by intros [? ?] |].
  destruct (String.eqb_spec c0 c) as [-> | Hne]; simpl.
  - by rewrite String.eqb_refl.
  - intros H. apply String.eqb_neq in Hne. rewrite Hne. auto.
Qed.

Lemma df_replace_lookup_ne (f : DataFrame) c c' vs :
  c' <> c -> df_lookup (df_replace f c vs) c' = df_lookup f c'.
Proof.
  intros Hne. induction f as [| [c0 v0] f IH]; simpl; [done |].
  destruct (String.eqb_spec c0 c) as [-> | Hne0]; simpl.
  - assert (String.eqb c c' = false) as -> by (apply String.eqb_neq; congruence).
    done.
  - by rewrite IH.
Qed.

Lemma df_app_lookup_eq (f : DataFrame) c vs :
  df_lookup f c = None -> df_lookup (f ++ [(c, vs)]) c = Some vs.
Proof.
  induction f as [| [c0 v0] f IH]; simpl.
  - by rewrite String.eqb_refl.
  - destruct (String.eqb c0 c); [done | auto].
Qed.

Lemma df_app_lookup_ne (f : DataFrame) c c' vs :
  c' <> c -> df_lookup (f ++ [(c, vs)]) c' = df_lookup f c'.
Proof.
  intros Hne. induction f as [| [c0 v0] f IH]; simpl.
  - assert (String.eqb c c' = false) as -> by (apply String.eqb_neq; congruence).
    done.
  - by rewrite IH.
Qed.

Lemma df_setitem_lookup_eq (f f' : DataFrame) c vs :
  df_setitem f c vs = Ok f' -> df_lookup f' c = Some vs.
Proof.
  unfold df_setitem. destruct (_ && _); [done |].
  destruct (df_lookup f c) eqn:E; intros [= <-].
  - apply df_replace_lookup_eq. by rewrite E.
  - by apply df_app_lookup_eq.
Qed.

Lemma df_setitem_lookup_ne (f f' : DataFrame) c c' vs :
  df_setitem f c vs = Ok f' -> c' <> c -> df_lookup f' c' = df_lookup f c'.
Proof.
  unfold df_setitem. destruct (_ && _); [done |].
  destruct (df_lookup f c) eqn:E; intros [= <-] Hne.
  - by apply df_replace_lookup_ne.
  - by apply df_app_lookup_ne.
Qed.

Lemma df_replace_Forall (P : string * list pyval -> Prop) (f : DataFrame) c vs :
  (forall c0, P (c0, vs)) -> Forall P f -> Forall P (df_replace f c vs).
Proof.
  intros Hvs. induction 1 as [| [c0 v0] f H0 Hf IH]; simpl; [constructor |].
  destruct (String.eqb c0 c); constructor; auto.
Qed.

Lemma df_setitem_wf (f f' : DataFrame) c vs :
  f <> [] -> df_wf f -> df_setitem f c vs = Ok f' ->
  df_wf f' /\ df_len f' = df_len f /\ f' <> [] /\ length vs = df_len f.
Proof.
  intros Hne Hwf. unfold df_setitem.
  destruct f as [| [c0 v0] f]; [done |]. simpl (length _ =? 0)%nat. simpl negb at 1.
  rewrite andb_true_l.
  destruct (length vs =? df_len ((c0, v0) :: f))%nat eqn:Hlen; simpl negb; cbv iota;
    [| done].
  apply Nat.eqb_eq in Hlen.
  assert (forall g : DataFrame, df_len g = df_len ((c0, v0) :: f) ->
            Forall (fun col => length col.2 = df_len ((c0, v0) :: f)) g -> df_wf g)
    as Hback.
  { intros g Hg Hall. unfold df_wf. by rewrite Hg. }
  destruct (df_lookup ((c0, v0) :: f) c) eqn:E; intros [= <-].
  - assert (df_len (df_replace ((c0, v0) :: f) c vs) = df_len ((c0, v0) :: f)) as Hl.
    { simpl. destruct (String.eqb c0 c); simpl; [exact Hlen | done]. }
    split; [| split; [exact Hl | split; [| exact Hlen]]].
    + apply Hback; [exact Hl |].
      apply (df_replace_Forall _ ((c0, v0) :: f) c vs); [intros; exact Hlen | exact Hwf].
    + simpl. by destruct (String.eqb c0 c).
  - split; [| split; [done | split; [done | exact Hlen]]].
    apply Hback; [done |].
    apply (proj2 (Forall_app _ ((c0, v0) :: f) [(c, vs)])). split; [exact Hwf |].
    constructor; [exact Hlen | constructor].
Qed.

(** *** Conversion *)

Lemma comprehension_floats exchange_rate key r xs :
  dict_lookup exchange_rate key = Some (PFloat r) ->
  comprehension (convert exchange_rate key) (PFloat <$> xs) = Ok (converted r xs).
Proof.
  intros Hr. induction xs as [| x xs IH]; [done |].
  change (PFloat <$> x :: xs) with (PFloat x :: (PFloat <$> xs)).
  cbn [comprehension]. rewrite IH.
  unfold convert, dict_getitem. by rewrite Hr.
Qed.


Lemma usd_frame_nonempty frame xs : usd_frame frame xs -> frame <> [].
Proof. intros [H _] ->. done. Qed.

Lemma usd_frame_length frame xs : usd_frame frame xs -> length xs = df_len frame.
Proof.
  intros [Hl Hwf]. unfold df_wf in Hwf. rewrite Forall_forall in Hwf.
  assert (exists c, (c, PFloat <$> xs) ∈ frame) as [c Hc].
  { clear Hwf. induction frame as [| [c0 v0] f IH]; simpl in Hl; [done |].
    destruct (String.eqb c0 "MC_USD_Billion").
    - injection Hl as ->. eexists. left.
    - destruct (IH Hl) as [c Hc]. exists c. by right. }
  apply Hwf in Hc. simpl in Hc.
  by rewrite length_fmap in Hc.
Qed.

(** A step whose currency has a rate goes through and sets its column. *)
Lemma add_currency_frame_ok frame xs exchange_rate column key r :
  usd_frame frame xs ->
  column <> "MC_USD_Billion" ->
  dict_lookup exchange_rate key = Some (PFloat r) ->
  exists frame',
    add_currency_frame frame exchange_rate column key = Ok frame'
    /\ usd_frame frame' xs
    /\ df_lookup frame' column = Some (converted r xs)
    /\ (forall c, c <> column -> df_lookup frame' c = df_lookup frame c).
Proof.
  intros Hf Hcol Hr.
  pose proof (usd_frame_nonempty _ _ Hf) as Hne.
  pose proof (usd_frame_length _ _ Hf) as Hlen.
  destruct Hf as [Husd Hwf].
  unfold add_currency_frame, df_getitem. rewrite Husd. cbn [rbind].
  rewrite (comprehension_floats _ _ r xs Hr). cbn [rbind].
  destruct (df_setitem frame column (converted r xs)) as [frame'|e] eqn:E.
  - exists frame'. split; [done |].
    destruct (df_setitem_wf _ _ _ _ Hne Hwf E) as (Hwf' & _).
    split; [split; [| done] |].
    + rewrite (df_setitem_lookup_ne _ _ _ _ _ E); [done | congruence].
    + split; [by eapply df_setitem_lookup_eq |].
      intros c Hc. by eapply df_setitem_lookup_ne.
  - exfalso. unfold df_setitem in E.
    assert (length (converted r xs) = df_len frame) as Hl
      by (unfold converted; by rewrite length_map).
    apply Nat.eqb_eq in Hl. rewrite Hl in E. rewrite andb_false_r in E.
    by destruct (df_lookup frame column).
Qed.


(** Whatever the steps do, they leave the other columns alone. *)
Lemma add_currencies_frame frame exchange_rate steps c :
  c ∉ steps.*1 ->
  df_lookup (add_currencies frame exchange_rate steps).2 c = df_lookup frame c.
Proof.
  revert frame. induction steps as [| [column key] steps IH]; intros frame Hc.
  - done.
  - rewrite add_currencies_cons.
    apply not_elem_of_cons in Hc as [Hne Hc].
    destruct (add_currency_frame frame exchange_rate column key) as [f'|e] eqn:E;
      [| done].
    rewrite (IH f' Hc).
    unfold add_currency_frame, rbind in E.
    destruct (df_getitem frame "MC_USD_Billion"); [| done].
    destruct (comprehension _ _); [| done].
    by eapply df_setitem_lookup_ne.
Qed.

(** *** Transformation *)

Lemma set_heap_same w df frame :
  w_heap w !! df = Some frame -> set_heap (<[df := frame]> (w_heap w)) w = w.
Proof.
  intros H. rewrite list_insert_id by done. by destruct w.
Qed.

Lemma add_currency_run df exchange_rate column key w frame :
  w_heap w !! df = Some frame ->
  add_currency df exchange_rate column key w
  = match add_currency_frame frame exchange_rate column key with
    | Ok frame' => (Ok tt, set_heap (<[df := frame']> (w_heap w)) w)
    | Raise e => (Raise e, w)
    end.
Proof.
  intros H. unfold add_currency, add_currency_frame, bind, deref, lift, rbind.
  rewrite H.
  destruct (df_getitem frame "MC_USD_Billion") as [usd|]; [| done].
  destruct (comprehension _ usd) as [vs|]; [| done].
  by destruct (df_setitem frame column vs).
Qed.

Lemma heap_after_assign w df (frame frame' : DataFrame) :
  w_heap w !! df = Some frame ->
  w_heap (set_heap (<[df := frame']> (w_heap w)) w) !! df = Some frame'.
Proof.
  intros H. simpl. apply list_lookup_insert_eq. by eapply lookup_lt_Some.
Qed.

Lemma set_heap_twice w df (f1 f2 : DataFrame) h h' :
  set_heap (<[df := f2]> (<[df := f1]> h)) (set_heap h' w)
  = set_heap (<[df := f2]> h) w.
Proof.
  unfold set_heap. simpl. by rewrite list_insert_insert_eq.
Qed.

(** [transform] on the object [df] holding [frame]: the rates are those of
    [rates_outcome] after the opening log line, the steps run as
    [add_currencies], and every way out is logged. *)
Lemma transform_run df csv_path w frame :
  w_heap w !! df = Some frame ->
  let w1 := logged BASE_DIR msg_start None w in
  let w2 := match FS.lookup w1 csv_path with
            | None => logged BASE_DIR msg_default_rates None w1
            | Some _ => w1
            end in
  transform BASE_DIR pd_read_csv df csv_path w
  = match rates_outcome pd_read_csv csv_path w1 with
    | Raise e => (Raise e, logged BASE_DIR ("Transformation error: " ++ exn_str e) None w1)
    | Ok exchange_rate =>
        let w3 := set_heap
                    (<[df := (add_currencies frame exchange_rate currency_steps).2]>
                       (w_heap w2)) w2 in
        match (add_currencies frame exchange_rate currency_steps).1 with
        | Ok _ => (Ok df, logged BASE_DIR msg_complete None w3)
        | Raise e =>
            (Raise e, logged BASE_DIR ("Transformation error: " ++ exn_str e) None w3)
        end
    end.
Proof.
  intros Hdf w1 w2.
  assert (w_heap w1 !! df = Some frame) as H1.
  { unfold w1. by destruct (logged_frame msg_start None w) as (-> & _). }
  assert (w_heap w2 !! df = Some frame) as H2.
  { unfold w2. destruct (FS.lookup w1 csv_path); [done |].
    by destruct (logged_frame msg_default_rates None w1) as (-> & _). }
  unfold transform, try_except, bind.
  rewrite log_progress_total. fold msg_start. fold w1.
  unfold FS.exists_, rates_outcome.
  assert (forall exchange_rate,
    (let (r, w') :=
       add_currency df exchange_rate "MC_GBP_Billion" "GBP" w2 in
     match r with
     | Ok _ =>
         let (r0, w'0) := add_currency df exchange_rate "MC_EUR_Billion" "EUR" w' in
         match r0 with
         | Ok _ =>
             let (r1, w'1) := add_currency df exchange_rate "MC_INR_Billion" "INR" w'0 in
             match r1 with
             | Ok _ =>
                 let (r2, w'2) := log_progress BASE_DIR msg_complete None w'1 in
                 match r2 with
                 | Ok _ => ret df w'2
                 | Raise e => (Raise e, w'2)
                 end
             | Raise e => (Raise e, w'1)
             end
         | Raise e => (Raise e, w'0)
         end
     | Raise e => (Raise e, w')
     end)
    = (match (add_currencies frame exchange_rate currency_steps).1 with
       | Ok _ => Ok df
       | Raise e => Raise e
       end,
       match (add_currencies frame exchange_rate currency_steps).1 with
       | Ok _ => logged BASE_DIR msg_complete None
                   (set_heap (<[df := (add_currencies frame exchange_rate currency_steps).2]>
                                (w_heap w2)) w2)
       | Raise _ => set_heap (<[df := (add_currencies frame exchange_rate currency_steps).2]>
                                (w_heap w2)) w2
       end)) as Hsteps.
  { intros R. unfold currency_steps. rewrite add_currencies_cons.
    rewrite (add_currency_run df R _ _ w2 frame H2).
    destruct (add_currency_frame frame R "MC_GBP_Billion" "GBP") as [f1|e1];
      cbn [fst snd]; [| by rewrite (set_heap_same w2 df frame H2)].
    rewrite add_currencies_cons.
    rewrite (add_currency_run df R _ _ _ f1 (heap_after_assign w2 df frame f1 H2)).
    destruct (add_currency_frame f1 R "MC_EUR_Billion" "EUR") as [f2|e2];
      cbn [fst snd w_heap set_heap]; [| done].
    rewrite set_heap_twice, add_currencies_cons.
    rewrite (add_currency_run df R _ _ _ f2 (heap_after_assign w2 df frame f2 H2)).
    destruct (add_currency_frame f2 R "MC_INR_Billion" "INR") as [f3|e3];
      cbn [fst snd w_heap set_heap]; [| done].
    rewrite set_heap_twice, add_currencies_nil. cbn [fst snd].
    by rewrite log_progress_total. }
  destruct (FS.lookup w1 csv_path) as [[|text]|] eqn:Hl; simpl.
  - unfold FS.read. rewrite Hl. simpl. by rewrite log_progress_total.
  - unfold FS.read. rewrite Hl. simpl. unfold lift.
    destruct (pd_read_csv text) as [rates_df|e]; simpl;
      [| by rewrite log_progress_total].
    destruct (rates_dict rates_df) as [R|e]; simpl;
      [| by rewrite log_progress_total].
    fold msg_complete. unfold w2 in Hsteps; try rewrite Hl in Hsteps.
    rewrite (Hsteps R).
    destruct (add_currencies frame R currency_steps).1; [done |].
    by rewrite log_progress_total.
  - rewrite log_progress_total. fold msg_default_rates. simpl.
    fold msg_complete. unfold w2 in Hsteps; try rewrite Hl in Hsteps.
    rewrite (Hsteps DEFAULT_EXCHANGE_RATES).
    destruct (add_currencies frame DEFAULT_EXCHANGE_RATES currency_steps).1; [done |].
    by rewrite log_progress_total.
Qed.

Lemma lookup_logged message w p :
  FS.key p <> FS.key (LOG_PATH BASE_DIR) ->
  FS.lookup (logged BASE_DIR message None w) p = FS.lookup w p.
Proof.
  intros Hk. unfold FS.lookup.
  by rewrite (logged_fs message None w (FS.key p) Hk).
Qed.

Lemma rates_outcome_logged message w csv_path :
  FS.key csv_path <> FS.key (LOG_PATH BASE_DIR) ->
  rates_outcome pd_read_csv csv_path (logged BASE_DIR message None w)
  = rates_outcome pd_read_csv csv_path w.
Proof.
  intros Hk. unfold rates_outcome. by rewrite lookup_logged.
Qed.

Lemma heap_logged message w :
  w_heap (logged BASE_DIR message None w) = w_heap w.
Proof. by destruct (logged_frame message None w) as (-> & _). Qed.

(** With a rate for each of the three currencies all steps go through. *)
Lemma add_currencies_ok frame xs exchange_rate rg re ri :
  usd_frame frame xs ->
  dict_lookup exchange_rate "GBP" = Some (PFloat rg) ->
  dict_lookup exchange_rate "EUR" = Some (PFloat re) ->
  dict_lookup exchange_rate "INR" = Some (PFloat ri) ->
  exists frame',
    add_currencies frame exchange_rate currency_steps = (Ok tt, frame')
    /\ usd_frame frame' xs
    /\ df_lookup frame' "MC_GBP_Billion" = Some (converted rg xs)
    /\ df_lookup frame' "MC_EUR_Billion" = Some (converted re xs)
    /\ df_lookup frame' "MC_INR_Billion" = Some (converted ri xs).
Proof.
  intros Hf Hg He Hi. unfold currency_steps.
  destruct (add_currency_frame_ok frame xs exchange_rate "MC_GBP_Billion" "GBP" rg)
    as (f1 & E1 & Hf1 & Hg1 & _); [done | done | done |].
  destruct (add_currency_frame_ok f1 xs exchange_rate "MC_EUR_Billion" "EUR" re)
    as (f2 & E2 & Hf2 & He2 & Ho2); [done | done | done |].
  destruct (add_currency_frame_ok f2 xs exchange_rate "MC_INR_Billion" "INR" ri)
    as (f3 & E3 & Hf3 & Hi3 & Ho3); [done | done | done |].
  exists f3.
  rewrite add_currencies_cons, E1, add_currencies_cons, E2, add_currencies_cons, E3.
  split; [done |]. split; [done |].
  split; [| split; [| done]].
  - rewrite Ho3, Ho2; done.
  - rewrite Ho3; done.
Qed.



(** C7. When nothing exists at the path of the rate file, [transform]
    does not fail: it logs the warning through [log_progress] between its
    opening and closing log lines, and sets the three columns from the
    built-in default rates. *)
Theorem transform_default_rates df csv_path w frame xs :
  w_heap w !! df = Some frame ->
  usd_frame frame xs ->
  FS.key csv_path <> FS.key (LOG_PATH BASE_DIR) ->
  FS.lookup w csv_path = None ->
  exists frame',
    transform BASE_DIR pd_read_csv df csv_path w
    = (Ok df,
       logged BASE_DIR msg_complete None
         (set_heap (<[df := frame']> (w_heap w))
            (logged BASE_DIR msg_default_rates None
               (logged BASE_DIR msg_start None w))))
    /\ add_currencies frame DEFAULT_EXCHANGE_RATES currency_steps = (Ok tt, frame')
    /\ df_lookup frame' "MC_GBP_Billion"
       = Some (converted (float_of_decimal false 8 (-1)) xs)
    /\ df_lookup frame' "MC_EUR_Billion"
       = Some (converted (float_of_decimal false 93 (-2)) xs)
    /\ df_lookup frame' "MC_INR_Billion"
       = Some (converted (float_of_decimal false 8295 (-2)) xs).
Proof.
  intros Hdf Hf Hk Hnone.
  pose proof (transform_run df csv_path w frame Hdf) as Hrun. cbv zeta in Hrun.
  unfold rates_outcome in Hrun. rewrite lookup_logged, Hnone in Hrun by done.
  destruct (add_currencies_ok frame xs DEFAULT_EXCHANGE_RATES
              (float_of_decimal false 8 (-1)) (float_of_decimal false 93 (-2))
              (float_of_decimal false 8295 (-2)) Hf)
    as (frame' & Hsteps & _ & Hg' & He' & Hi'); [done | done | done |].
  rewrite Hsteps in Hrun. cbn [fst snd] in Hrun.
  rewrite !heap_logged in Hrun.
  exists frame'. auto.
Qed.

(** C5, as amended. [transform] works on the object it is given: whatever
    way it ends, the object [df] keeps every column but the three currency
    columns as it was (the names and the USD values among them), and no
    other object changes; when it returns, it returns [df] itself. *)
Theorem transform_frame_effect df csv_path w frame :
  w_heap w !! df = Some frame ->
  exists frame',
    w_heap (transform BASE_DIR pd_read_csv df csv_path w).2
    = <[df := frame']> (w_heap w)
    /\ (forall c, c ∉ currency_steps.*1 -> df_lookup frame' c = df_lookup frame c)
    /\ df_lookup frame' "MC_USD_Billion" = df_lookup frame "MC_USD_Billion"
    /\ (forall other, other <> df ->
          w_heap (transform BASE_DIR pd_read_csv df csv_path w).2 !! other
          = w_heap w !! other)
    /\ (forall r, (transform BASE_DIR pd_read_csv df csv_path w).1 = Ok r -> r = df).
Proof.
  intros Hdf.
  pose proof (transform_run df csv_path w frame Hdf) as Hrun. cbv zeta in Hrun.
  assert (exists frame',
    w_heap (transform BASE_DIR pd_read_csv df csv_path w).2 = <[df := frame']> (w_heap w)
    /\ (forall c, c ∉ currency_steps.*1 -> df_lookup frame' c = df_lookup frame c)
    /\ (forall r, (transform BASE_DIR pd_read_csv df csv_path w).1 = Ok r -> r = df))
    as (frame' & Hheap & Hcols & Hret).
  { rewrite Hrun.
    destruct (rates_outcome pd_read_csv csv_path _) as [R | e].
    - exists (add_currencies frame R currency_steps).2.
      assert (w_heap match FS.lookup (logged BASE_DIR msg_start None w) csv_path with
                     | Some _ => logged BASE_DIR msg_start None w
                     | None => logged BASE_DIR msg_default_rates None
                                 (logged BASE_DIR msg_start None w)
                     end = w_heap w) as Hh
        by (destruct (FS.lookup _ csv_path); by rewrite !heap_logged).
      destruct (add_currencies frame R currency_steps).1 eqn:E; cbn [fst snd];
        rewrite heap_logged; cbn [w_heap set_heap]; rewrite Hh;
        (split; [done |]); (split; [intros c Hc; by apply add_currencies_frame |]).
      + by intros r [= <-].
      + done.
    - exists frame. cbn [fst snd]. rewrite !heap_logged.
      split; [by rewrite list_insert_id |]. done. }
  exists frame'. split; [done |]. split; [done |].
  split.
  { apply Hcols. unfold currency_steps. cbn. rewrite !elem_of_cons, elem_of_nil.
    intros [H | [H | [H | []]]]; discriminate H. }
  split; [| done].
  intros other Hne. rewrite Hheap. by apply list_lookup_insert_ne.
Qed.





(** *** Loading into the database *)

Lemma set_dbs_same w : set_dbs (w_dbs w) w = w.
Proof. by destruct w. Qed.

Lemma to_sql_replace_run frame name con w :
  exists r,
    SQL.to_sql frame name con SQL.IfReplace w
    = (r, set_dbs (replaced frame name con (w_dbs w)) w)
    /\ (forall db, w_dbs w !! con = Some db -> db_open db = true ->
          r = match SQL.insert_rows (SQL.create_table frame) frame with
              | Ok _ => Ok tt
              | Raise e => Raise e
              end).
Proof.
  unfold SQL.to_sql, replaced, bind, SQL.tables.
  destruct (w_dbs w !! con) as [db|] eqn:Hdb;
    [| rewrite set_dbs_same; eexists; split; [reflexivity | done]].
  destruct (db_open db) eqn:Hopen;
    [| rewrite set_dbs_same; eexists; split; [reflexivity | congruence]].
  assert ((let (r, w') := SQL.set_tables con (delete name (db_tables db)) w in
           match r with
           | Ok _ =>
               let (r0, w'0) := lift (SQL.insert_rows (SQL.create_table frame) frame) w' in
               match r0 with
               | Ok a0 => SQL.set_tables con (<[name:=a0]> (delete name (db_tables db))) w'0
               | Raise e => (Raise e, w'0)
               end
           | Raise e => (Raise e, w')
           end)
          = (match SQL.insert_rows (SQL.create_table frame) frame with
             | Ok _ => Ok tt
             | Raise e => Raise e
             end,
             set_dbs
               match SQL.insert_rows (SQL.create_table frame) frame with
               | Ok new =>
                   <[con := {| db_open := true;
                               db_tables := <[name := new]> (delete name (db_tables db)) |}]>
                     (w_dbs w)
               | Raise _ =>
                   <[con := {| db_open := true; db_tables := delete name (db_tables db) |}]>
                     (w_dbs w)
               end w)) as Hrun.
  { unfold SQL.set_tables, modify, lift. cbn [w_dbs set_dbs].
    destruct (SQL.insert_rows (SQL.create_table frame) frame); [| done].
    unfold set_dbs. cbn. by rewrite insert_insert_eq. }
  destruct (db_tables db !! name); rewrite Hrun;
    (eexists; split; [reflexivity |]); by intros db' [= <-] _.
Qed.


Lemma load_to_db_run df con table_name w :
  w_heap (load_to_db BASE_DIR df con table_name w).2 = w_heap w
  /\ w_dbs (load_to_db BASE_DIR df con table_name w).2
     = match w_heap w !! df with
       | Some frame => replaced frame table_name con (w_dbs w)
       | None => w_dbs w
       end
  /\ (forall frame db,
        w_heap w !! df = Some frame -> w_dbs w !! con = Some db -> db_open db = true ->
        (load_to_db BASE_DIR df con table_name w).1
        = match SQL.insert_rows (SQL.create_table frame) frame with
          | Ok _ => Ok tt
          | Raise e => Raise e
          end).
Proof.
  unfold load_to_db, try_except, bind, deref.
  destruct (w_heap w !! df) as [frame|] eqn:Hdf.
  - destruct (to_sql_replace_run frame table_name con w) as (r & -> & Hr).
    destruct r as [[]|e]; rewrite log_progress_total; cbn [fst snd].
    + rewrite heap_logged.
      destruct (logged_frame "Data loaded to Database as a table, Executing queries"
                  None (set_dbs (replaced frame table_name con (w_dbs w)) w))
        as (_ & -> & _).
      split; [done |]. split; [done |].
      intros frame' db [= <-] Hdb Hopen. by rewrite <- (Hr db Hdb Hopen).
    + unfold raise. cbn [fst snd]. rewrite heap_logged.
      destruct (logged_frame ("Database load error: " ++ exn_str e)
                  None (set_dbs (replaced frame table_name con (w_dbs w)) w))
        as (_ & -> & _).
      split; [done |]. split; [done |].
      intros frame' db [= <-] Hdb Hopen. by rewrite <- (Hr db Hdb Hopen).
  - rewrite log_progress_total. unfold raise. cbn [fst snd].
    rewrite heap_logged.
    match goal with |- context [logged BASE_DIR ?m ?f ?x] =>
      destruct (logged_frame m f x) as (_ & -> & _) end.
    done.
Qed.




(** *** Writing the CSV file *)

(** [os.makedirs] on the empty name fails, also with [exist_ok=True]. *)
Lemma makedirs_empty exist_ok w :
  FS.makedirs "" exist_ok w = (Raise (OSError ENOENT ""), w).
Proof. by destruct exist_ok. Qed.

(** C9, where the code departs from it. For an output path without a
    directory part [os.path.dirname] is the empty name, [os.makedirs]
    raises [FileNotFoundError] on it, and [load_to_csv] fails before it
    writes anything: only the error is logged. *)
Theorem load_to_csv_bare_filename df w :
  load_to_csv BASE_DIR to_csv_text df "Largest_banks_data.csv" w
  = (Raise (OSError ENOENT ""),
     logged BASE_DIR ("CSV save error: " ++ exn_str (OSError ENOENT "")) None w).
Proof.
  unfold load_to_csv, try_except, bind.
  change (Path.dirname "Largest_banks_data.csv") with "".
  rewrite makedirs_empty. by rewrite log_progress_total.
Qed.

(** *** Logging never fails *)


End Facts.

(** * Further properties of the pipeline *)

Section Further.

Variable BASE_DIR : string.
Variable soup_wikitables : string -> list html_table.
Variable pd_read_csv : string -> result DataFrame.
Variable to_csv_text : DataFrame -> string.

(** *** The ways [extract] fails *)

(** A failing [extract] leaves exactly two log lines behind: the opening
    one and the error, filed under connection or extraction. *)
Lemma extract_fail_world url table_attribs w e :
  extract_outcome soup_wikitables url table_attribs w = Raise e ->
  extract BASE_DIR soup_wikitables url table_attribs w
  = (Raise e,
     logged BASE_DIR
       ((if is_RequestException e then "Connection error: " else "Extraction error: ")
        ++ exn_str e) None
       (logged BASE_DIR "Starting data extraction from Wikipedia..." None w)).
Proof.
  unfold extract, extract_outcome, try_except, bind.
  rewrite log_progress_total.
  destruct (logged_frame BASE_DIR "Starting data extraction from Wikipedia..." None w)
    as (_ & _ & Hw & _).
  unfold requests_get. rewrite Hw.
  destruct (w_web w url) as [msg | status_code text]; cbn [fst snd].
  { intros [= <-]. cbn. by rewrite log_progress_total. }
  unfold raise_for_status; cbn [fst snd].
  destruct ((400 <=? status_code) && (status_code <? 600))%Z.
  { intros [= <-]. cbn. by rewrite log_progress_total. }
  cbn [ret].
  destruct (soup_wikitables text) as [| target_table others].
  { intros [= <-]. cbn. by rewrite log_progress_total. }
  rewrite extract_loop_omap. cbn [app].
  destruct (omap extract_row (tail target_table)) as [| r data].
  { intros [= <-]. cbn. by rewrite log_progress_total. }
  unfold lift. intros ->. cbn [fst snd].
  destruct (is_RequestException e); by rewrite log_progress_total.
Qed.

(** X1. When the request fails in transport, or the response has a 4xx or
    5xx status, [extract] raises [RequestException]; the failure is logged
    as a connection error, and no frame is made. *)
Theorem extract_request_failure url table_attribs w :
  (forall msg,
      w_web w url = Unreachable msg ->
      extract BASE_DIR soup_wikitables url table_attribs w
      = (Raise (RequestException msg),
         logged BASE_DIR ("Connection error: " ++ msg) None
           (logged BASE_DIR "Starting data extraction from Wikipedia..." None w)))
  /\ (forall status_code text,
        w_web w url = Response status_code text ->
        (400 <= status_code < 600)%Z ->
        exists e,
          is_RequestException e = true
          /\ extract BASE_DIR soup_wikitables url table_attribs w
             = (Raise e,
                logged BASE_DIR ("Connection error: " ++ exn_str e) None
                  (logged BASE_DIR "Starting data extraction from Wikipedia..." None w))).
Proof.
  split.
  - intros msg Hweb.
    rewrite (extract_fail_world url table_attribs w (RequestException msg)); [done |].
    unfold extract_outcome. by rewrite Hweb.
  - intros status_code text Hweb [Hlo Hhi].
    exists (RequestException "HTTP error"). split; [done |].
    rewrite (extract_fail_world url table_attribs w (RequestException "HTTP error"));
      [done |].
    unfold extract_outcome. rewrite Hweb.
    apply Z.leb_le in Hlo. apply Z.ltb_lt in Hhi. by rewrite Hlo, Hhi.
Qed.

(** X2. A page without a [wikitable] makes [extract] raise
    [ValueError("Required tables not found")], logged as an extraction
    error; no frame is made. *)
Theorem extract_no_table url table_attribs w status_code text :
  w_web w url = Response status_code text ->
  ((400 <=? status_code) && (status_code <? 600))%Z = false ->
  soup_wikitables text = [] ->
  extract BASE_DIR soup_wikitables url table_attribs w
  = (Raise (ValueError "Required tables not found"),
     logged BASE_DIR "Extraction error: Required tables not found" None
       (logged BASE_DIR "Starting data extraction from Wikipedia..." None w)).
Proof.
  intros Hweb Hst Hsoup.
  rewrite (extract_fail_world url table_attribs w
             (ValueError "Required tables not found")); [done |].
  unfold extract_outcome. by rewrite Hweb, Hst, Hsoup.
Qed.

(** X3. [extract] needs exactly two column labels: with valid rows on the
    page and any other number of labels the frame cannot be built, and
    [extract] raises [ValueError] and makes no frame. *)
Theorem extract_wrong_label_count url table_attribs w status_code text
    target_table others :
  w_web w url = Response status_code text ->
  ((400 <=? status_code) && (status_code <? 600))%Z = false ->
  soup_wikitables text = target_table :: others ->
  (exists cols, cols ∈ tail target_table /\ is_Some (extract_row cols)) ->
  length table_attribs <> 2%nat ->
  exists msg w',
    extract BASE_DIR soup_wikitables url table_attribs w = (Raise (ValueError msg), w')
    /\ w_heap w' = w_heap w.
Proof.
  intros Hweb Hst Hsoup (cols & Hin & [r Hr]) Hlen.
  assert (extract_outcome soup_wikitables url table_attribs w
          = Raise (ValueError "columns passed do not match the passed data")) as Hout.
  { unfold extract_outcome. rewrite Hweb, Hst, Hsoup.
    assert (r ∈ omap extract_row (tail target_table)) as Hr'
      by (apply list_elem_of_omap; eauto).
    destruct (omap extract_row (tail target_table)) as [| r0 data] eqn:E;
      [by apply elem_of_nil in Hr' |].
    unfold DataFrame_new.
    replace (forallb _ (r0 :: data)) with false; [done |].
    symmetry. apply not_true_is_false. intros Hall.
    rewrite forallb_forall in Hall.
    apply list_elem_of_In, Hall, Nat.eqb_eq in Hr'.
    apply extract_row_shape in Hr as (x & -> & _). simpl in Hr'. congruence. }
  rewrite (extract_fail_world url table_attribs w _ Hout).
  eexists _, _. split; [reflexivity |]. cbn [is_RequestException].
  by rewrite !(heap_logged BASE_DIR).
Qed.

(** X4. What [extract] returns depends on the data rows of the first
    [wikitable] only: the header row is never read as data, and later
    tables are not looked at. *)
Theorem extract_ignores_header url1 url2 table_attribs w s1 s2 text1 text2
    header1 header2 rows others1 others2 :
  w_web w url1 = Response s1 text1 ->
  w_web w url2 = Response s2 text2 ->
  ((400 <=? s1) && (s1 <? 600))%Z = false ->
  ((400 <=? s2) && (s2 <? 600))%Z = false ->
  soup_wikitables text1 = (header1 :: rows) :: others1 ->
  soup_wikitables text2 = (header2 :: rows) :: others2 ->
  (extract BASE_DIR soup_wikitables url1 table_attribs w).1
  = (extract BASE_DIR soup_wikitables url2 table_attribs w).1
  /\ w_heap (extract BASE_DIR soup_wikitables url1 table_attribs w).2
     = w_heap (extract BASE_DIR soup_wikitables url2 table_attribs w).2.
Proof.
  intros Hw1 Hw2 Hs1 Hs2 Ht1 Ht2.
  destruct (extract_run BASE_DIR soup_wikitables url1 table_attribs w)
    as (w1 & -> & Hh1 & _).
  destruct (extract_run BASE_DIR soup_wikitables url2 table_attribs w)
    as (w2 & -> & Hh2 & _).
  cbn [fst snd]. rewrite Hh1, Hh2.
  assert (extract_outcome soup_wikitables url1 table_attribs w
          = extract_outcome soup_wikitables url2 table_attribs w) as ->; [| done].
  unfold extract_outcome. by rewrite Hw1, Hw2, Hs1, Hs2, Ht1, Ht2.
Qed.

(** *** From [extract] to [transform] *)

Lemma extracted_values_floats rows :
  exists xs,
    omap (fun r : list pyval => r !! 1%nat) (omap extract_row rows) = PFloat <$> xs
    /\ Forall (fun x => gt0 x = true) xs.
Proof.
  induction rows as [| cols rows (xs & IH & Hpos)]; simpl; [by exists [] |].
  destruct (extract_row cols) as [r|] eqn:E; [| by exists xs].
  apply extract_row_shape in E as (x & -> & Hx). simpl.
  exists (x :: xs). split; [| by constructor].
  change (PFloat <$> x :: xs) with (PFloat x :: (PFloat <$> xs)). by f_equal.
Qed.

(** The frame of a successful [extract], under a name label and the USD
    label: a frame of bank records with at least one record, all positive. *)
Lemma extract_ok_usd_frame url a w df w' :
  a <> "MC_USD_Billion" ->
  extract BASE_DIR soup_wikitables url [a; "MC_USD_Billion"] w = (Ok df, w') ->
  exists names xs,
    w_heap w' !! df = Some [(a, names); ("MC_USD_Billion", PFloat <$> xs)]
    /\ usd_frame [(a, names); ("MC_USD_Billion", PFloat <$> xs)] xs
    /\ xs <> [] /\ Forall (fun x => gt0 x = true) xs
    /\ w_dbs w' = w_dbs w /\ df = length (w_heap w).
Proof.
  intros Ha Hex.
  destruct (extract_run BASE_DIR soup_wikitables url [a; "MC_USD_Billion"] w)
    as (w1 & Hrun & Hheap & Hdbs).
  rewrite Hex in Hrun.
  unfold extract_outcome in *.
  destruct (w_web w url) as [msg | status_code text]; [by inversion Hrun |].
  destruct ((400 <=? status_code) && (status_code <? 600))%Z; [by inversion Hrun |].
  destruct (soup_wikitables text) as [| target_table others]; [by inversion Hrun |].
  destruct (omap extract_row (tail target_table)) as [| r data] eqn:E;
    [by inversion Hrun |].
  rewrite <- E in Hrun, Hheap.
  rewrite DataFrame_new_extracted in Hrun, Hheap.
  inversion Hrun; subst df w1; clear Hrun.
  destruct (extracted_values_floats (tail target_table)) as (xs & Hxs & Hpos).
  pose proof (extracted_lengths (tail target_table)) as Hlen.
  unfold extracted_frame in Hheap. rewrite Hxs in Hheap, Hlen.
  eexists _, xs. split; [rewrite Hheap; by apply list_lookup_middle |].
  split; [| split; [| split; [done | split; [done | done]]]].
  - split.
    + simpl. apply String.eqb_neq in Ha. by rewrite Ha.
    + unfold df_wf. simpl. repeat constructor; simpl; congruence.
  - intros ->. rewrite E in Hxs.
    assert (r ∈ omap extract_row (tail target_table)) as Hr by (rewrite E; left).
    apply list_elem_of_omap in Hr as (c & _ & Hc).
    apply extract_row_shape in Hc as (x & -> & _). simpl in Hxs. discriminate.
Qed.

(** *** The columns [transform] sets *)

Lemma converted_length r xs : length (converted r xs) = length xs.
Proof. unfold converted. by rewrite length_map. Qed.

Lemma df_setitem_ok (frame : DataFrame) c vs :
  frame <> [] -> length vs = df_len frame ->
  df_setitem frame c vs
  = Ok (match df_lookup frame c with
        | Some _ => df_replace frame c vs
        | None => (frame ++ [(c, vs)])%list
        end).
Proof.
  intros Hne Hlen. unfold df_setitem.
  apply Nat.eqb_eq in Hlen. rewrite Hlen, andb_false_r.
  by destruct (df_lookup frame c).
Qed.

(** A step on a frame that has no such column yet puts it last. *)
Lemma add_currency_frame_fresh frame xs exchange_rate column key r :
  usd_frame frame xs ->
  dict_lookup exchange_rate key = Some (PFloat r) ->
  df_lookup frame column = None ->
  add_currency_frame frame exchange_rate column key
  = Ok (frame ++ [(column, converted r xs)])%list.
Proof.
  intros Hf Hr Hnone.
  pose proof (usd_frame_nonempty _ _ Hf) as Hne.
  pose proof (usd_frame_length _ _ Hf) as Hlen.
  destruct Hf as [Husd _].
  unfold add_currency_frame, df_getitem. rewrite Husd. cbn [rbind].
  rewrite (comprehension_floats _ _ r xs Hr). cbn [rbind].
  rewrite df_setitem_ok, Hnone; [done | done |].
  by rewrite converted_length.
Qed.

Lemma df_replace_same (frame : DataFrame) c vs :
  df_lookup frame c = Some vs -> df_replace frame c vs = frame.
Proof.
  induction frame as [| [c0 v0] frame IH]; simpl; [done |].
  destruct (String.eqb c0 c).
  - by intros [= ->].
  - intros H. by rewrite IH.
Qed.

(** A step on a frame whose column already holds the converted values
    changes nothing. *)
Lemma add_currency_frame_same frame xs exchange_rate column key r :
  usd_frame frame xs ->
  dict_lookup exchange_rate key = Some (PFloat r) ->
  df_lookup frame column = Some (converted r xs) ->
  add_currency_frame frame exchange_rate column key = Ok frame.
Proof.
  intros Hf Hr Hsome.
  pose proof (usd_frame_nonempty _ _ Hf) as Hne.
  pose proof (usd_frame_length _ _ Hf) as Hlen.
  destruct Hf as [Husd _].
  unfold add_currency_frame, df_getitem. rewrite Husd. cbn [rbind].
  rewrite (comprehension_floats _ _ r xs Hr). cbn [rbind].
  rewrite df_setitem_ok, Hsome; [by rewrite df_replace_same | done |].
  by rewrite converted_length.
Qed.

(** With the three rates and none of the three columns there yet, the
    steps put the columns last, in their order. *)
Lemma add_currencies_fresh frame xs exchange_rate rg re ri :
  usd_frame frame xs ->
  dict_lookup exchange_rate "GBP" = Some (PFloat rg) ->
  dict_lookup exchange_rate "EUR" = Some (PFloat re) ->
  dict_lookup exchange_rate "INR" = Some (PFloat ri) ->
  df_lookup frame "MC_GBP_Billion" = None ->
  df_lookup frame "MC_EUR_Billion" = None ->
  df_lookup frame "MC_INR_Billion" = None ->
  add_currencies frame exchange_rate currency_steps
  = (Ok tt, frame ++ [ ("MC_GBP_Billion", converted rg xs);
                       ("MC_EUR_Billion", converted re xs);
                       ("MC_INR_Billion", converted ri xs) ])%list.
Proof.
  intros Hf Hg He Hi Hng Hne Hni.
  destruct (add_currency_frame_ok frame xs exchange_rate "MC_GBP_Billion" "GBP" rg)
    as (f1 & E1 & Hf1 & _ & Ho1); [done | done | done |].
  rewrite (add_currency_frame_fresh frame xs _ _ _ rg Hf Hg Hng) in E1.
  injection E1 as <-.
  destruct (add_currency_frame_ok _ xs exchange_rate "MC_EUR_Billion" "EUR" re Hf1)
    as (f2 & E2 & Hf2 & _ & Ho2); [done | done |].
  assert (df_lookup (frame ++ [("MC_GBP_Billion", converted rg xs)]) "MC_EUR_Billion"
          = None) as Hne1 by (by rewrite Ho1).
  rewrite (add_currency_frame_fresh _ xs _ _ _ re Hf1 He Hne1) in E2.
  injection E2 as <-.
  assert (df_lookup ((frame ++ [("MC_GBP_Billion", converted rg xs)])
                       ++ [("MC_EUR_Billion", converted re xs)]) "MC_INR_Billion"
          = None) as Hni2 by (rewrite Ho2, Ho1; done).
  unfold currency_steps.
  rewrite add_currencies_cons, (add_currency_frame_fresh frame xs _ _ _ rg Hf Hg Hng).
  rewrite add_currencies_cons, (add_currency_frame_fresh _ xs _ _ _ re Hf1 He Hne1).
  rewrite add_currencies_cons, (add_currency_frame_fresh _ xs _ _ _ ri Hf2 Hi Hni2).
  rewrite add_currencies_nil. by rewrite <- !app_assoc.
Qed.

Lemma heap_after_transform df csv_path w frame exchange_rate :
  w_heap w !! df = Some frame ->
  rates_outcome pd_read_csv csv_path (logged BASE_DIR msg_start None w)
  = Ok exchange_rate ->
  w_heap (transform BASE_DIR pd_read_csv df csv_path w).2
  = <[df := (add_currencies frame exchange_rate currency_steps).2]> (w_heap w)
  /\ (transform BASE_DIR pd_read_csv df csv_path w).1
     = match (add_currencies frame exchange_rate currency_steps).1 with
       | Ok _ => Ok df
       | Raise e => Raise e
       end
  /\ w_dbs (transform BASE_DIR pd_read_csv df csv_path w).2 = w_dbs w.
Proof.
  intros Hdf Hrates.
  pose proof (transform_run BASE_DIR pd_read_csv df csv_path w frame Hdf) as Hrun.
  cbv zeta in Hrun. rewrite Hrates in Hrun. rewrite Hrun.
  assert (w_heap match FS.lookup (logged BASE_DIR msg_start None w) csv_path with
                 | Some _ => logged BASE_DIR msg_start None w
                 | None => logged BASE_DIR msg_default_rates None
                             (logged BASE_DIR msg_start None w)
                 end = w_heap w
          /\ w_dbs match FS.lookup (logged BASE_DIR msg_start None w) csv_path with
                   | Some _ => logged BASE_DIR msg_start None w
                   | None => logged BASE_DIR msg_default_rates None
                               (logged BASE_DIR msg_start None w)
                   end = w_dbs w) as [Hh Hd].
  { destruct (FS.lookup _ csv_path); rewrite ?(heap_logged BASE_DIR); split; try done.
    - by destruct (logged_frame BASE_DIR msg_start None w) as (_ & -> & _).
    - destruct (logged_frame BASE_DIR msg_default_rates None
                  (logged BASE_DIR msg_start None w)) as (_ & -> & _).
      by destruct (logged_frame BASE_DIR msg_start None w) as (_ & -> & _). }
  destruct (add_currencies frame exchange_rate currency_steps).1; cbn [fst snd];
    rewrite (heap_logged BASE_DIR); cbn [w_heap set_heap]; rewrite Hh;
    (split; [done |]); (split; [done |]);
    match goal with |- context [logged BASE_DIR ?m ?f ?x] =>
      destruct (logged_frame BASE_DIR m f x) as (_ & -> & _) end;
    cbn [w_dbs set_heap]; exact Hd.
Qed.

(** X5. The frame [extract] returns under the configured labels is what
    [transform] needs: with a rate for each of GBP, EUR and INR,
    [transform] on it succeeds, and the frame then has exactly the five
    columns Name, MC_USD_Billion, MC_GBP_Billion, MC_EUR_Billion,
    MC_INR_Billion in this order, all with one value per bank. *)
Theorem extract_then_transform url csv_path w df w1 exchange_rate rg re ri :
  extract BASE_DIR soup_wikitables url TABLE_ATTRIBUTES w = (Ok df, w1) ->
  FS.key csv_path <> FS.key (LOG_PATH BASE_DIR) ->
  rates_outcome pd_read_csv csv_path w1 = Ok exchange_rate ->
  dict_lookup exchange_rate "GBP" = Some (PFloat rg) ->
  dict_lookup exchange_rate "EUR" = Some (PFloat re) ->
  dict_lookup exchange_rate "INR" = Some (PFloat ri) ->
  exists frame',
    (transform BASE_DIR pd_read_csv df csv_path w1).1 = Ok df
    /\ w_heap (transform BASE_DIR pd_read_csv df csv_path w1).2 !! df = Some frame'
    /\ frame'.*1 = ["Name"; "MC_USD_Billion"; "MC_GBP_Billion"; "MC_EUR_Billion";
                    "MC_INR_Billion"]
    /\ df_wf frame' /\ (0 < df_len frame')%nat.
Proof.
  intros Hex Hk Hrates Hg He Hi.
  destruct (extract_ok_usd_frame url "Name" w df w1) as
    (names & xs & Hdf & Hf & Hne & _); [done | exact Hex |].
  set (frame := [("Name", names); ("MC_USD_Billion", PFloat <$> xs)]) in *.
  destruct (heap_after_transform df csv_path w1 frame exchange_rate Hdf)
    as (Hheap & Hres & _); [by rewrite rates_outcome_logged |].
  destruct (add_currencies_ok frame xs exchange_rate rg re ri Hf Hg He Hi)
    as (frame' & Hsteps & Hf' & _).
  pose proof (add_currencies_fresh frame xs exchange_rate rg re ri Hf Hg He Hi
                eq_refl eq_refl eq_refl) as Hexact.
  rewrite Hexact in Hsteps. injection Hsteps as <-.
  rewrite Hexact in Hheap, Hres. cbn [fst snd] in Hheap, Hres.
  eexists. split; [exact Hres |].
  split; [rewrite Hheap; apply list_lookup_insert_eq; by eapply lookup_lt_Some |].
  split; [done |]. split; [by destruct Hf' |].
  pose proof (usd_frame_length _ _ Hf') as Hl. cbn in Hl |- *. rewrite <- Hl.
  destruct xs; [done | simpl; lia].
Qed.


(** X7. A frame without the column [MC_USD_Billion] makes [transform]
    raise [KeyError('MC_USD_Billion')] once the rates are loaded; no object
    is changed. *)
Theorem transform_missing_usd_column df csv_path w frame exchange_rate :
  w_heap w !! df = Some frame ->
  FS.key csv_path <> FS.key (LOG_PATH BASE_DIR) ->
  rates_outcome pd_read_csv csv_path w = Ok exchange_rate ->
  df_lookup frame "MC_USD_Billion" = None ->
  (transform BASE_DIR pd_read_csv df csv_path w).1 = Raise (KeyError "MC_USD_Billion")
  /\ w_heap (transform BASE_DIR pd_read_csv df csv_path w).2 = w_heap w.
Proof.
  intros Hdf Hk Hrates Hnone.
  destruct (heap_after_transform df csv_path w frame exchange_rate Hdf)
    as (Hheap & Hres & _); [by rewrite rates_outcome_logged |].
  assert (add_currencies frame exchange_rate currency_steps
          = (Raise (KeyError "MC_USD_Billion"), frame)) as Hsteps.
  { unfold currency_steps. rewrite add_currencies_cons.
    unfold add_currency_frame, df_getitem. by rewrite Hnone. }
  rewrite Hsteps in Hheap, Hres. cbn [fst snd] in Hheap, Hres.
  split; [exact Hres |]. rewrite Hheap. by apply list_insert_id.
Qed.


Lemma transform_lookup df csv_path w frame p :
  w_heap w !! df = Some frame ->
  FS.key p <> FS.key (LOG_PATH BASE_DIR) ->
  FS.lookup (transform BASE_DIR pd_read_csv df csv_path w).2 p = FS.lookup w p.
Proof.
  intros Hdf Hp.
  pose proof (transform_run BASE_DIR pd_read_csv df csv_path w frame Hdf) as Hrun.
  cbv zeta in Hrun. rewrite Hrun.
  assert (forall h x, FS.lookup (set_heap h x) p = FS.lookup x p) as Hset by done.
  assert (FS.lookup match FS.lookup (logged BASE_DIR msg_start None w) csv_path with
                    | Some _ => logged BASE_DIR msg_start None w
                    | None => logged BASE_DIR msg_default_rates None
                                (logged BASE_DIR msg_start None w)
                    end p = FS.lookup w p) as Hw2
    by (destruct (FS.lookup _ csv_path); by rewrite !lookup_logged).
  destruct (rates_outcome pd_read_csv csv_path _) as [R | e]; cbn [snd].
  - destruct (add_currencies frame R currency_steps).1; cbn [snd];
      by rewrite lookup_logged, Hset, Hw2.
  - by rewrite !lookup_logged.
Qed.

(** X9. Running [transform] a second time on the same object with the
    same rates changes nothing more: the three columns are set in place
    again to the same values, not added a second time. *)
Theorem transform_twice df csv_path w frame xs exchange_rate rg re ri :
  w_heap w !! df = Some frame ->
  usd_frame frame xs ->
  FS.key csv_path <> FS.key (LOG_PATH BASE_DIR) ->
  rates_outcome pd_read_csv csv_path w = Ok exchange_rate ->
  dict_lookup exchange_rate "GBP" = Some (PFloat rg) ->
  dict_lookup exchange_rate "EUR" = Some (PFloat re) ->
  dict_lookup exchange_rate "INR" = Some (PFloat ri) ->
  let once := transform BASE_DIR pd_read_csv df csv_path w in
  let twice := transform BASE_DIR pd_read_csv df csv_path once.2 in
  once.1 = Ok df /\ twice.1 = Ok df /\ w_heap twice.2 = w_heap once.2.
Proof.
  intros Hdf Hf Hk Hrates Hg He Hi once twice.
  destruct (heap_after_transform df csv_path w frame exchange_rate Hdf)
    as (Hheap & Hres & _); [by rewrite rates_outcome_logged |].
  destruct (add_currencies_ok frame xs exchange_rate rg re ri Hf Hg He Hi)
    as (frame' & Hsteps & Hf' & Hg' & He' & Hi').
  rewrite Hsteps in Hheap, Hres. cbn [fst snd] in Hheap, Hres.
  fold once in Hheap, Hres.
  assert (w_heap once.2 !! df = Some frame') as Hdf'.
  { rewrite Hheap. apply list_lookup_insert_eq. by eapply lookup_lt_Some. }
  assert (rates_outcome pd_read_csv csv_path once.2 = Ok exchange_rate) as Hrates'.
  { unfold rates_outcome, once.
    rewrite (transform_lookup df csv_path w frame csv_path Hdf Hk). exact Hrates. }
  destruct (heap_after_transform df csv_path once.2 frame' exchange_rate Hdf')
    as (Hheap2 & Hres2 & _); [by rewrite rates_outcome_logged |].
  fold twice in Hheap2, Hres2.
  assert (add_currencies frame' exchange_rate currency_steps = (Ok tt, frame'))
    as Hsame.
  { unfold currency_steps.
    rewrite add_currencies_cons, (add_currency_frame_same frame' xs _ _ _ rg Hf' Hg Hg').
    rewrite add_currencies_cons, (add_currency_frame_same frame' xs _ _ _ re Hf' He He').
    rewrite add_currencies_cons, (add_currency_frame_same frame' xs _ _ _ ri Hf' Hi Hi').
    by rewrite add_currencies_nil. }
  rewrite Hsame in Hheap2, Hres2. cbn [fst snd] in Hheap2, Hres2.
  split; [exact Hres |]. split; [exact Hres2 |].
  rewrite Hheap2. by apply list_insert_id.
Qed.

(** *** The log file *)


(** *** Only the log is written *)

Lemma str_app_nil_r (s : string) : s ++ "" = s.
Proof.
  induction s as [| c s IH]; [done |].
  change (String c (s ++ "") = String c s). by rewrite IH.
Qed.

Lemma str_app_assoc (s1 s2 s3 : string) : (s1 ++ s2) ++ s3 = s1 ++ s2 ++ s3.
Proof.
  induction s1 as [| c s1 IH]; [done |].
  change (String c ((s1 ++ s2) ++ s3) = String c (s1 ++ s2 ++ s3)). by rewrite IH.
Qed.

Lemma log_only_refl log w : log_only log w w.
Proof. split; [done |]. split; [| done]. intros old H. exists "". by rewrite H, str_app_nil_r. Qed.

Lemma log_only_trans log w1 w2 w3 :
  log_only log w1 w2 -> log_only log w2 w3 -> log_only log w1 w3.
Proof.
  intros (Ho1 & Hf1 & Hd1) (Ho2 & Hf2 & Hd2). split; [| split].
  - intros k Hk. by rewrite Ho2, Ho1.
  - intros old H. destruct (Hf1 old H) as (m1 & H1).
    destruct (Hf2 _ H1) as (m2 & H2). exists (m1 ++ m2).
    by rewrite H2, str_app_assoc.
  - auto.
Qed.

Lemma writes_log_only_same {A} log (m : M A) :
  (forall w, w_fs (m w).2 = w_fs w) -> writes_log_only log m.
Proof.
  intros H w. split; [by rewrite H |]. split; [| by rewrite H].
  intros old Hold. exists "". by rewrite H, Hold, str_app_nil_r.
Qed.

Lemma writes_log_only_bind {A B} log (m : M A) (k : A -> M B) :
  writes_log_only log m -> (forall a, writes_log_only log (k a)) ->
  writes_log_only log (bind m k).
Proof.
  intros Hm Hk w. unfold bind. specialize (Hm w).
  destruct (m w) as [[a | e] w1]; cbn [snd] in *; [| done].
  eapply log_only_trans; [exact Hm | apply Hk].
Qed.

Lemma writes_log_only_try {A} log (m : M A) (h : exn -> M A) :
  writes_log_only log m -> (forall e, writes_log_only log (h e)) ->
  writes_log_only log (try_except m h).
Proof.
  intros Hm Hh w. unfold try_except. specialize (Hm w).
  destruct (m w) as [[a | e] w1]; cbn [snd] in *; [done |].
  eapply log_only_trans; [exact Hm | apply Hh].
Qed.

Lemma write_append_log_only log text :
  writes_log_only log (FS.write log FS.Append text).
Proof.
  intros w. unfold FS.write, FS.create.
  destruct (String.eqb log "") eqn:Hempty; [apply log_only_refl |].
  unfold FS.lookup. rewrite Hempty.
  destruct (Path.all_sep log); [apply log_only_refl |].
  destruct (w_fs w !! FS.key log) as [[| old] |] eqn:E.
  - apply log_only_refl.
  - case_bool_decide; [apply log_only_refl |]. cbn [snd]. split; [| split].
    + intros k Hk. cbn. by rewrite lookup_insert_ne.
    + intros old' Hold. rewrite E in Hold. injection Hold as <-.
      exists text. cbn. by rewrite lookup_insert_eq.
    + intros Hold. congruence.
  - destruct (FS.parent w log) as [[| ?] |]; try apply log_only_refl.
    case_bool_decide; [apply log_only_refl |]. cbn [snd]. split; [| split].
    + intros k Hk. cbn. by rewrite lookup_insert_ne.
    + intros old' Hold. congruence.
    + intros Hold. congruence.
Qed.

Lemma log_progress_log_only message :
  writes_log_only (LOG_PATH BASE_DIR) (log_progress BASE_DIR message None).
Proof.
  unfold log_progress. cbn [default].
  apply writes_log_only_try; [| intros e; by apply writes_log_only_same].
  apply writes_log_only_bind; [by apply writes_log_only_same |]. intros stamp.
  apply writes_log_only_bind; [apply write_append_log_only |]. intros _.
  by apply writes_log_only_same.
Qed.

Lemma lift_log_only {A} log (r : result A) : writes_log_only log (lift r).
Proof. by apply writes_log_only_same. Qed.

Lemma raise_log_only {A} log e : writes_log_only log (raise e : M A).
Proof. by apply writes_log_only_same. Qed.

Lemma ret_log_only {A} log (a : A) : writes_log_only log (ret a).
Proof. by apply writes_log_only_same. Qed.


Lemma extract_log_only url table_attribs :
  writes_log_only (LOG_PATH BASE_DIR)
    (extract BASE_DIR soup_wikitables url table_attribs).
Proof.
  unfold extract. apply writes_log_only_try.
  - apply writes_log_only_bind; [apply log_progress_log_only |]. intros _.
    apply writes_log_only_bind.
    { apply writes_log_only_same. intros w. unfold requests_get.
      by destruct (w_web w url). }
    intros response. apply writes_log_only_bind.
    { unfold raise_for_status. destruct (_ && _)%Z;
        [apply raise_log_only | apply ret_log_only]. }
    intros _. destruct (soup_wikitables response.2) as [| t ts];
      [apply raise_log_only |].
    destruct (extract_loop (tail t) []); [apply raise_log_only |].
    apply writes_log_only_bind; [apply lift_log_only |]. intros frame.
    apply writes_log_only_bind; [by apply writes_log_only_same |]. intros df.
    apply writes_log_only_bind; [apply log_progress_log_only |]. intros _.
    apply ret_log_only.
  - intros e. destruct (is_RequestException e);
      (apply writes_log_only_bind; [apply log_progress_log_only |]);
      intros _; apply raise_log_only.
Qed.






(** *** The database load *)

(** X12. On a closed connection [load_to_db] raises the database error
    ("Cannot operate on a closed database."), logs it as a database load
    error, and changes no table. *)
Theorem load_to_db_closed df con table_name w frame db :
  w_heap w !! df = Some frame ->
  w_dbs w !! con = Some db ->
  db_open db = false ->
  load_to_db BASE_DIR df con table_name w
  = (Raise (DatabaseError "Cannot operate on a closed database."),
     logged BASE_DIR "Database load error: Cannot operate on a closed database."
       None w).
Proof.
  intros Hdf Hdb Hclosed.
  unfold load_to_db, try_except, bind, deref, SQL.to_sql, SQL.tables, bind.
  rewrite Hdf, Hdb, Hclosed. cbn. by rewrite log_progress_total.
Qed.

(** X13. [load_to_db] touches one table of one database: every other
    connection's database, every other table behind the same connection,
    and all frames are as they were, however the load ends. *)
Theorem load_to_db_frame df con table_name w :
  let w' := (load_to_db BASE_DIR df con table_name w).2 in
  w_heap w' = w_heap w
  /\ (forall con', con' <> con -> w_dbs w' !! con' = w_dbs w !! con')
  /\ (forall db, w_dbs w !! con = Some db ->
        exists db', w_dbs w' !! con = Some db'
                    /\ forall name', name' <> table_name ->
                          db_tables db' !! name' = db_tables db !! name').
Proof.
  intros w'.
  destruct (load_to_db_run BASE_DIR df con table_name w) as (Hh & Hd & _).
  fold w' in Hh, Hd. split; [exact Hh |].
  rewrite Hd. destruct (w_heap w !! df) as [frame |]; [| by eauto].
  unfold replaced.
  destruct (w_dbs w !! con) as [db0 |] eqn:Hdb; [| split; [done | by intros ? [=]]].
  destruct (db_open db0); [| split; [done | intros ? [= <-]; rewrite Hdb; by eauto]].
  destruct (SQL.insert_rows (SQL.create_table frame) frame) as [new | e].
  - split; [intros con' Hne; by rewrite lookup_insert_ne |].
    intros db [= <-]. rewrite lookup_insert_eq. eexists. split; [done |].
    intros name' Hne. cbn. by rewrite lookup_insert_ne, lookup_delete_ne.
  - split; [intros con' Hne; by rewrite lookup_insert_ne |].
    intros db [= <-]. rewrite lookup_insert_eq. eexists. split; [done |].
    intros name' Hne. cbn. by rewrite lookup_delete_ne.
Qed.

(** *** Paths *)

Lemma rsplit_sep_no_sep f : no_sep f = true -> Path.rsplit_sep f = ("", f).
Proof.
  induction f as [| c f IH]; [done |].
  unfold no_sep. cbn [string_forallb]. intros [Hc Hf]%andb_true_iff.
  cbn [Path.rsplit_sep]. rewrite (IH Hf).
  apply negb_true_iff in Hc. by rewrite Hc.
Qed.

Lemma rsplit_sep_app d f :
  no_sep f = true ->
  Path.rsplit_sep (d ++ f) = ((Path.rsplit_sep d).1, (Path.rsplit_sep d).2 ++ f).
Proof.
  intros Hf. induction d as [| c d IH].
  - cbn [String.append]. by rewrite rsplit_sep_no_sep.
  - change (String c d ++ f) with (String c (d ++ f)).
    cbn [Path.rsplit_sep]. rewrite IH.
    destruct (Path.rsplit_sep d) as [[| h0 h] t]; cbn [fst snd]; [| done].
    by destruct (Path.is_sep c).
Qed.

Lemma rsplit_sep_slash d : Path.rsplit_sep (d ++ "/") = (d ++ "/", "").
Proof.
  induction d as [| c d IH]; [done |].
  change (String c d ++ "/") with (String c (d ++ "/")).
  cbn [Path.rsplit_sep]. rewrite IH. by destruct d.
Qed.

Lemma rstrip_slash d :
  rstrip_with Path.is_sep (d ++ "/") = rstrip_with Path.is_sep d.
Proof.
  induction d as [| c d IH]; [done |].
  change (String c d ++ "/") with (String c (d ++ "/")).
  cbn [rstrip_with]. by rewrite IH.
Qed.

Lemma rstrip_keeps d c :
  Path.is_sep c = false ->
  rstrip_with Path.is_sep (d ++ String c "") = d ++ String c "".
Proof.
  intros Hc. induction d as [| c0 d IH].
  - change (rstrip_with Path.is_sep (String c "") = String c "").
    cbn [rstrip_with]. by rewrite Hc.
  - change (String c0 d ++ String c "") with (String c0 (d ++ String c "")).
    cbn [rstrip_with]. rewrite IH. by destruct d.
Qed.

Lemma all_sep_app a b : Path.all_sep (a ++ b) = Path.all_sep a && Path.all_sep b.
Proof.
  induction a as [| c a IH]; [done |].
  change (String c a ++ b) with (String c (a ++ b)).
  unfold Path.all_sep in *. cbn [string_forallb]. by rewrite IH, andb_assoc.
Qed.

Lemma app_last_inj (x y : string) c d :
  x ++ String c "" = y ++ String d "" -> c = d.
Proof.
  revert y. induction x as [| a x IH]; intros [| b y]; cbn.
  - by intros [= ->].
  - intros [= _ H]. by destruct y.
  - intros [= _ H]. by destruct x.
  - intros [= _ H]. by apply (IH y).
Qed.

(** The directory part of [d/f] for a name [f] without a slash and a
    directory [d] that does not end in one. *)
Lemma dirname_join d c f :
  Path.is_sep c = false -> no_sep f = true ->
  Path.dirname ((d ++ String c "") ++ "/" ++ f) = d ++ String c "".
Proof.
  intros Hc Hf. unfold Path.dirname, Path.split.
  rewrite <- str_app_assoc, rsplit_sep_app, rsplit_sep_slash by done.
  cbn [fst snd]. rewrite all_sep_app, all_sep_app.
  assert (Path.all_sep (String c "") = false) as ->
    by (unfold Path.all_sep; cbn [string_forallb]; by rewrite Hc).
  rewrite andb_false_r, andb_false_l.
  assert (String.eqb ((d ++ String c "") ++ "/") "" = false) as ->
    by (by destruct d).
  cbn [negb andb fst]. by rewrite rstrip_slash, rstrip_keeps.
Qed.

Lemma join_plain a c b0 b :
  Path.is_sep c = false -> Path.is_sep b0 = false ->
  Path.join (a ++ String c "") (String b0 b) = (a ++ String c "") ++ "/" ++ String b0 b.
Proof.
  intros Hc Hb. unfold Path.join.
  assert (Path.ends_with_sep (a ++ String c "") = false) as Hends.
  { unfold Path.ends_with_sep.
    rewrite rsplit_sep_app by (unfold no_sep; cbn [string_forallb]; by rewrite Hc).
    destruct (Path.rsplit_sep a) as [[| ? ?] t]; cbn [fst snd]; [done |].
    by destruct t. }
  assert (String.eqb (a ++ String c "") "" = false) as Hne by (by destruct a).
  rewrite Hends, Hne. cbn [orb].
  unfold Path.is_sep in Hb. destruct b0 as [[] [] [] [] [] [] [] []]; try done.
Qed.

(** [os.path.join(BASE_DIR, name)] ends in [name], for a plain name. *)
Lemma join_base_dir b0 b :
  Path.is_sep b0 = false ->
  exists x, Path.join BASE_DIR (String b0 b) = x ++ String b0 b.
Proof.
  intros Hb. unfold Path.join.
  assert (match String b0 b with
          | String "/" _ => String b0 b
          | _ => if String.eqb BASE_DIR "" || Path.ends_with_sep BASE_DIR
                 then BASE_DIR ++ String b0 b
                 else BASE_DIR ++ "/" ++ String b0 b
          end
          = if String.eqb BASE_DIR "" || Path.ends_with_sep BASE_DIR
            then BASE_DIR ++ String b0 b
            else BASE_DIR ++ "/" ++ String b0 b) as ->.
  { unfold Path.is_sep in Hb. destruct b0 as [[] [] [] [] [] [] [] []]; try done. }
  destruct (_ || _).
  - by exists BASE_DIR.
  - exists (BASE_DIR ++ "/"). by rewrite str_app_assoc.
Qed.

(** X14. Wherever the project lies, the configured rate file and output
    file are in the data directory: the directory part of either path is
    [DATA_DIR], which is never empty (so the directory [load_to_csv]
    creates for the configured output is a real name), and neither path is
    the log file. *)
Theorem configured_paths :
  Path.dirname (OUTPUT_CSV_PATH BASE_DIR) = DATA_DIR BASE_DIR
  /\ Path.dirname (CSV_PATH BASE_DIR) = DATA_DIR BASE_DIR
  /\ DATA_DIR BASE_DIR <> ""
  /\ FS.key (CSV_PATH BASE_DIR) <> FS.key (LOG_PATH BASE_DIR)
  /\ FS.key (OUTPUT_CSV_PATH BASE_DIR) <> FS.key (LOG_PATH BASE_DIR).
Proof.
  unfold OUTPUT_CSV_PATH, CSV_PATH, LOG_PATH, DATA_DIR.
  destruct (join_base_dir "d" "ata" eq_refl) as (x & ->).
  destruct (join_base_dir "c" "ode_log.txt" eq_refl) as (l & ->).
  change (x ++ "data") with (x ++ "dat" ++ String "a" "").
  rewrite <- (str_app_assoc x "dat").
  rewrite !join_plain by done.
  rewrite !dirname_join by done.
  split; [done |]. split; [done |].
  split; [by destruct (x ++ "dat") |].
  set (d := (x ++ "dat") ++ String "a" "").
  assert (forall f c, Path.is_sep c = false ->
            FS.key (d ++ "/" ++ f ++ String c "") = (d ++ "/" ++ f) ++ String c "")
    as Hkey.
  { intros f c Hc. unfold FS.key.
    rewrite <- (str_app_assoc d "/"), <- (str_app_assoc (d ++ "/") f).
    rewrite rstrip_keeps by done. by rewrite <- !str_app_assoc. }
  assert (FS.key (l ++ "code_log.txt") = (l ++ "code_log.tx") ++ String "t" "") as Hlog.
  { unfold FS.key.
    change (l ++ "code_log.txt") with (l ++ "code_log.tx" ++ String "t" "").
    rewrite <- str_app_assoc. by rewrite rstrip_keeps. }
  rewrite Hlog.
  change "exchange_rate.csv" with ("exchange_rate.cs" ++ String "v" "").
  change "Largest_banks_data.csv" with ("Largest_banks_data.cs" ++ String "v" "").
  rewrite !Hkey by done.
  split; intros H; apply app_last_inj in H; discriminate H.
Qed.

(** *** Writing the CSV file where the directory can be had *)

Lemma no_sep_last f :
  no_sep f = true -> f <> "" ->
  exists f' c, f = f' ++ String c "" /\ Path.is_sep c = false.
Proof.
  induction f as [| a f IH]; [done |]. intros Hf _.
  unfold no_sep in Hf. cbn [string_forallb] in Hf.
  apply andb_true_iff in Hf as [Ha Hf]. apply negb_true_iff in Ha.
  destruct f as [| b f].
  - by exists "", a.
  - destruct (IH Hf) as (f' & c & -> & Hc); [done |].
    by exists (String a f'), c.
Qed.

Lemma app_not_self (x y : string) : y <> "" -> x ++ y <> x.
Proof.
  intros Hy. induction x as [| a x IH]; [done |].
  change (String a x ++ y) with (String a (x ++ y)). by intros [= H].
Qed.

Lemma lookup_plain w x c :
  Path.is_sep c = false ->
  FS.lookup w (x ++ String c "") = w_fs w !! (x ++ String c "").
Proof.
  intros Hc. unfold FS.lookup, FS.key.
  rewrite rstrip_keeps, all_sep_app by done.
  assert (Path.all_sep (String c "") = false) as ->
    by (unfold Path.all_sep; cbn [string_forallb]; by rewrite Hc).
  rewrite andb_false_r. by destruct x.
Qed.

(** [os.makedirs(d, exist_ok=True)] for a directory name [d] that does not
    end in a slash and whose own parent is there: an existing directory is
    accepted, a file in its place is an error, and a missing directory is
    made. *)
Lemma makedirs_one_level w x c :
  Path.is_sep c = false ->
  let d := x ++ String c "" in
  (Path.dirname d = "" \/ FS.lookup w (Path.dirname d) = Some Dir) ->
  FS.makedirs d true w
  = match w_fs w !! d with
    | Some Dir => (Ok tt, w)
    | Some (File _) => (Raise (OSError EEXIST d), w)
    | None =>
        if bool_decide (d ∈ w_denied w) then (Raise (OSError EACCES d), w)
        else (Ok tt, set_fs (<[d := Dir]> (w_fs w)) w)
    end.
Proof.
  intros Hc d Hparent.
  assert (FS.key d = d) as Hkey by (by apply rstrip_keeps).
  assert (String.eqb d "" = false) as Hne by (unfold d; by destruct x).
  assert (FS.lookup w d = w_fs w !! d) as Hlook by (by apply lookup_plain).
  assert (try_except (FS.mkdir d)
            (fun e => do isd <- FS.isdir d ;;
                      if is_OSError e && true && isd then ret tt else raise e) w
          = match w_fs w !! d with
            | Some Dir => (Ok tt, w)
            | Some (File _) => (Raise (OSError EEXIST d), w)
            | None =>
                if bool_decide (d ∈ w_denied w) then (Raise (OSError EACCES d), w)
                else (Ok tt, set_fs (<[d := Dir]> (w_fs w)) w)
            end) as Hmake.
  { unfold try_except, FS.mkdir, FS.isdir, bind. rewrite Hne, Hlook.
    destruct (w_fs w !! d) as [[| old] |] eqn:E; cbn [fst snd].
    - rewrite ?Hlook, ?E. done.
    - rewrite ?Hlook, ?E. done.
    - unfold FS.create, FS.parent. rewrite Hkey.
      assert ((if String.eqb (Path.dirname d) "" then Some Dir
               else FS.lookup w (Path.dirname d)) = Some Dir) as ->.
      { destruct Hparent as [-> | ->]; [done |].
        by destruct (String.eqb (Path.dirname d) ""). }
      case_bool_decide; cbn [fst snd]; [| done].
      rewrite ?Hlook, ?E. done. }
  unfold FS.makedirs. cbn [FS.makedirs_rec].
  assert ((Path.split d).2 <> "") as Htail.
  { unfold Path.split, d.
    rewrite rsplit_sep_app by (unfold no_sep; cbn [string_forallb]; by rewrite Hc).
    destruct (_ && _); cbn [snd]; by destruct (Path.rsplit_sep x).2. }
  assert (Path.split d = (Path.dirname d, (Path.split d).2)) as ->
    by (unfold Path.dirname; by destruct (Path.split d)).
  apply String.eqb_neq in Htail. cbv beta iota zeta. rewrite !Htail.
  cbv beta iota zeta. rewrite ?Htail. cbn [negb].
  rewrite andb_true_r.
  destruct (String.eqb (Path.dirname d) "") eqn:Hd; cbn [negb]; [exact Hmake |].
  destruct Hparent as [Hp | Hp]; [by rewrite Hp in Hd |].
  unfold bind at 1, FS.exists_. rewrite Hp. exact Hmake.
Qed.

(** X15. For an output path [d/f] whose directory [d] is there, or is
    missing while its parent is there and [d] may be made, [load_to_csv]
    makes [d] if needed and writes the file: it returns, [d] is a
    directory, and the file holds the CSV text of the frame and nothing
    else, whatever it held before. *)
Theorem load_to_csv_writes df w frame x c f :
  Path.is_sep c = false ->
  no_sep f = true -> f <> "" ->
  let d := x ++ String c "" in
  let output_path := d ++ "/" ++ f in
  w_heap w !! df = Some frame ->
  (Path.dirname d = "" \/ FS.lookup w (Path.dirname d) = Some Dir) ->
  (w_fs w !! d = Some Dir \/ (w_fs w !! d = None /\ d ∉ w_denied w)) ->
  w_fs w !! output_path <> Some Dir ->
  output_path ∉ w_denied w ->
  FS.key (LOG_PATH BASE_DIR) <> output_path ->
  let w' := (load_to_csv BASE_DIR to_csv_text df output_path w).2 in
  (load_to_csv BASE_DIR to_csv_text df output_path w).1 = Ok tt
  /\ FS.lookup w' output_path = Some (File (to_csv_text frame))
  /\ FS.lookup w' d = Some Dir.
Proof.
  intros Hc Hf Hfne d output_path Hdf Hparent Hdir Hnodir Hperm Hlog w'.
  destruct (no_sep_last f Hf Hfne) as (f' & c2 & -> & Hc2).
  assert (output_path = (d ++ "/" ++ f') ++ String c2 "") as Hpath
    by (unfold output_path; by rewrite !str_app_assoc).
  assert (Path.dirname output_path = d) as Hdirname
    by (unfold output_path, d; by apply dirname_join).
  assert (FS.key output_path = output_path) as Hkey
    by (rewrite Hpath; by apply rstrip_keeps).
  assert (output_path <> d) as Hne.
  { unfold output_path. apply app_not_self. done. }
  assert (forall v, FS.lookup v output_path = w_fs v !! output_path) as Hlp
    by (intros v; rewrite Hpath; by apply lookup_plain).
  assert (forall v, FS.lookup v d = w_fs v !! d) as Hld
    by (intros v; by apply lookup_plain).
  assert (String.eqb output_path "" = false) as Hnonempty.
  { rewrite Hpath. by destruct (d ++ "/" ++ f'). }
  (* the directory *)
  assert (exists w1,
            FS.makedirs d true w = (Ok tt, w1)
            /\ w_fs w1 !! d = Some Dir
            /\ w_fs w1 !! output_path = w_fs w !! output_path
            /\ w_heap w1 = w_heap w /\ w_denied w1 = w_denied w) as
    (w1 & Hmk & Hd1 & Hp1 & Hh1 & Hden1).
  { pose proof (makedirs_one_level w x c Hc Hparent) as Hmk0.
    cbv zeta in Hmk0. fold d in Hmk0. rewrite Hmk0.
    destruct Hdir as [Hd | [Hd Hok]]; rewrite Hd; [by exists w |].
    rewrite bool_decide_eq_false_2 by done.
    eexists. split; [done |]. cbn.
    split; [by rewrite lookup_insert_eq |].
    split; [by rewrite lookup_insert_ne | done]. }
  (* the file *)
  assert (FS.write output_path FS.Truncate (to_csv_text frame) w1
          = (Ok tt, set_fs (<[output_path := File (to_csv_text frame)]> (w_fs w1)) w1))
    as Hwrite.
  { unfold FS.write. rewrite Hnonempty, Hlp, Hp1, Hden1, Hkey.
    destruct (w_fs w !! output_path) as [[| old] |] eqn:E; [done | |].
    - by rewrite bool_decide_eq_false_2.
    - unfold FS.create, FS.parent. rewrite Hkey, Hdirname, Hld, Hd1, Hden1.
      assert (String.eqb d "" = false) as -> by (unfold d; by destruct x).
      by rewrite bool_decide_eq_false_2. }
  set (w2 := set_fs (<[output_path := File (to_csv_text frame)]> (w_fs w1)) w1).
  assert (load_to_csv BASE_DIR to_csv_text df output_path w
          = (Ok tt, logged BASE_DIR ("Data saved to CSV file: " ++ output_path) None w2))
    as Hrun.
  { unfold load_to_csv, try_except, bind. rewrite Hdirname, Hmk.
    unfold deref. rewrite Hh1, Hdf, Hwrite. by rewrite log_progress_total. }
  unfold w'. rewrite Hrun. cbn [fst snd]. split; [done |].
  pose proof (log_progress_log_only ("Data saved to CSV file: " ++ output_path) w2)
    as (Hother & _ & Hdirs).
  rewrite (log_progress_total BASE_DIR) in Hother, Hdirs. cbn [snd] in Hother, Hdirs.
  rewrite Hlp, Hld. split.
  - rewrite Hother by congruence. unfold w2. cbn. by rewrite lookup_insert_eq.
  - assert (w_fs w2 !! d = Some Dir) as Hd2.
    { unfold w2. cbn. rewrite lookup_insert_ne by done. exact Hd1. }
    destruct (decide (d = FS.key (LOG_PATH BASE_DIR))) as [Heq | Hneq].
    + rewrite Heq in Hd2 |- *. by apply Hdirs.
    + by rewrite Hother.
Qed.

(** *** Rules for composing computations *)













Lemma same_dbs_extract url table_attribs :
  same_dbs (extract BASE_DIR soup_wikitables url table_attribs).
Proof.
  intros w.
  destruct (extract_run BASE_DIR soup_wikitables url table_attribs w)
    as (w' & -> & _ & Hdbs).
  exact Hdbs.
Qed.

End Further.

(** ** The whole run ([main], [run_query], [run_etl.py]) *)

Section Run.

Variable BASE_DIR : string.
Variable soup_wikitables : string -> list html_table.
Variable pd_read_csv : string -> result DataFrame.
Variable to_csv_text : DataFrame -> string.
Variable sqlite3_connect : string -> M nat.
Variable pd_read_sql :
  string -> gmap string DataFrame -> result DataFrame * gmap string DataFrame.
Variable df_str : DataFrame -> string.

Lemma bind_ok {A B} (m : M A) (k : A -> M B) w a w1 :
  m w = (Ok a, w1) -> bind m k w = k a w1.
Proof. intros H. unfold bind. by rewrite H. Qed.

Lemma bind_raise {A B} (m : M A) (k : A -> M B) w e w1 :
  m w = (Raise e, w1) -> bind m k w = (Raise e, w1).
Proof. intros H. unfold bind. by rewrite H. Qed.










Lemma extract_outcome_web url table_attribs w w' :
  w_web w' = w_web w ->
  extract_outcome soup_wikitables url table_attribs w'
  = extract_outcome soup_wikitables url table_attribs w.
Proof. intros H. unfold extract_outcome. by rewrite H. Qed.

(** X16. On a connection that is closed, or was never opened, [run_query]
    prints the query, raises the database error, and logs it as a query
    execution error; the query is not run and no frame is made. *)
Theorem run_query_closed query_statement con w :
  (forall db, w_dbs w !! con = Some db -> db_open db = false) ->
  run_query BASE_DIR pd_read_sql df_str query_statement con w
  = (Raise (DatabaseError "Cannot operate on a closed database."),
     logged BASE_DIR "Query execution error: Cannot operate on a closed database."
       None
       (set_console (w_console w ++ [nl ++ "Running Query: " ++ query_statement ++ nl])
          w)).
Proof.
  intros Hclosed. unfold run_query, try_except.
  assert (forall line v, print line v = (Ok tt, (print line v).2)) as Hprint by done.
  rewrite (bind_ok _ _ _ _ _ (Hprint _ w)).
  change (print (nl ++ "Running Query: " ++ query_statement ++ nl) w).2
    with (set_console
            (w_console w ++ [nl ++ "Running Query: " ++ query_statement ++ nl]) w).
  set (w1 := set_console _ w).
  assert (SQL.tables con w1
          = (Raise (DatabaseError "Cannot operate on a closed database."), w1)) as Ht.
  { unfold SQL.tables. change (w_dbs w1) with (w_dbs w).
    destruct (w_dbs w !! con) as [db |] eqn:Hdb; [| done].
    by rewrite (Hclosed db eq_refl). }
  rewrite (bind_raise _ _ _ _ _ Ht).
  by rewrite (bind_ok _ _ _ _ _ (log_progress_total BASE_DIR _ _ _)).
Qed.





(** X19. When the page cannot be turned into a frame, [main] raises the
    exception of [extract] after logging "ETL Process failed: ...": no
    frame is made, no database is touched, and of the files only the log
    is written, so the CSV and the table of an earlier run stay as they
    were. *)
Theorem main_extract_failure w con w1 e :
  sqlite3_connect DB_NAME (logged BASE_DIR msg_init None w) = (Ok con, w1) ->
  extract_outcome soup_wikitables WIKIPEDIA_URL TABLE_ATTRIBUTES w1 = Raise e ->
  exists w2,
    extract BASE_DIR soup_wikitables WIKIPEDIA_URL TABLE_ATTRIBUTES
      (logged BASE_DIR "Step 1: Data Extraction" None
         (logged BASE_DIR "SQL Connection initiated" None w1)) = (Raise e, w2)
    /\ main BASE_DIR soup_wikitables pd_read_csv to_csv_text
         sqlite3_connect pd_read_sql df_str w
       = (Raise e, logged BASE_DIR ("ETL Process failed: " ++ exn_str e) None w2)
    /\ w_heap (logged BASE_DIR ("ETL Process failed: " ++ exn_str e) None w2)
       = w_heap w1
    /\ w_dbs (logged BASE_DIR ("ETL Process failed: " ++ exn_str e) None w2)
       = w_dbs w1
    /\ log_only (LOG_PATH BASE_DIR) w1
         (logged BASE_DIR ("ETL Process failed: " ++ exn_str e) None w2).
Proof.
  intros Hconnect Hout.
  set (wa := logged BASE_DIR "SQL Connection initiated" None w1).
  set (wb := logged BASE_DIR "Step 1: Data Extraction" None wa).
  destruct (logged_frame BASE_DIR "SQL Connection initiated" None w1)
    as (Hha & Hda & Hwa & _). fold wa in Hha, Hda, Hwa.
  destruct (logged_frame BASE_DIR "Step 1: Data Extraction" None wa)
    as (Hhb & Hdb & Hwb & _). fold wb in Hhb, Hdb, Hwb.
  assert (extract_outcome soup_wikitables WIKIPEDIA_URL TABLE_ATTRIBUTES wb = Raise e)
    as Hout'.
  { rewrite <- Hout. apply extract_outcome_web. by rewrite Hwb, Hwa. }
  pose proof (extract_fail_world BASE_DIR soup_wikitables _ _ _ _ Hout') as Hext.
  eexists. split; [exact Hext |].
  match type of Hext with _ = (_, ?w) => set (w2 := w) in * end.
  split; [| split; [| split]].
  - unfold main, try_except.
    rewrite (bind_ok _ _ _ _ _ (log_progress_total BASE_DIR _ _ _)).
    fold msg_init. rewrite (bind_ok _ _ _ _ _ Hconnect).
    rewrite (bind_ok _ _ _ _ _ (log_progress_total BASE_DIR _ _ _)). fold wa.
    rewrite (bind_ok _ _ _ _ _ (log_progress_total BASE_DIR _ _ _)). fold wb.
    rewrite (bind_raise _ _ _ _ _ Hext).
    by rewrite (bind_ok _ _ _ _ _ (log_progress_total BASE_DIR _ _ _)).
  - destruct (logged_frame BASE_DIR ("ETL Process failed: " ++ exn_str e) None w2)
      as (-> & _).
    pose proof (extract_run BASE_DIR soup_wikitables WIKIPEDIA_URL TABLE_ATTRIBUTES wb)
      as (w' & Hrun & Hheap & _).
    rewrite Hext, Hout' in Hrun. injection Hrun as <-.
    rewrite Hout' in Hheap. by rewrite Hheap, Hhb, Hha.
  - destruct (logged_frame BASE_DIR ("ETL Process failed: " ++ exn_str e) None w2)
      as (_ & -> & _).
    pose proof (same_dbs_extract BASE_DIR soup_wikitables WIKIPEDIA_URL
                  TABLE_ATTRIBUTES wb) as Hd.
    rewrite Hext in Hd. cbn [snd] in Hd. by rewrite Hd, Hdb, Hda.
  - apply log_only_trans with wa;
      [apply (log_progress_log_only BASE_DIR "SQL Connection initiated" w1) |].
    apply log_only_trans with wb;
      [apply (log_progress_log_only BASE_DIR "Step 1: Data Extraction" wa) |].
    apply log_only_trans with w2.
    { pose proof (extract_log_only BASE_DIR soup_wikitables WIKIPEDIA_URL
                    TABLE_ATTRIBUTES wb) as Hl.
      rewrite Hext in Hl. exact Hl. }
    apply (log_progress_log_only BASE_DIR ("ETL Process failed: " ++ exn_str e) w2).
Qed.


End Run.

(** ** The theorems at concrete inputs *)

Lemma extract_skips_bad_rows_witness :
  exists w',
    extract "" (fun _ => [sample_table]) "url" TABLE_ATTRIBUTES
      (sample_world (Response 200 "page") ∅) = (Ok 0%nat, w')
    /\ w_heap w' = [sample_frame].
Proof.
  destruct (extract_skips_bad_rows "" (fun _ => [sample_table]) "url"
              "Name" "MC_USD_Billion" (sample_world (Response 200 "page") ∅)
              200 "page" ["Rank"; "Bank name"; "Market cap (US$ billion)"]
              (scenario_rows "1" "2" "3" "4") [] eq_refl eq_refl eq_refl)
    as ((w' & Hrun & Hheap) & _ & Hscenario).
  - exists ["1"; "Bank A"; "100"]. split; [left | eexists; vm_compute; reflexivity].
  - exists w'. split; [exact Hrun |].
    rewrite Hheap. by rewrite (Hscenario "1" "2" "3" "4" eq_refl).
Defined.

Lemma extract_no_valid_rows_fails_witness :
  exists w',
    extract "" (fun _ => [[ ["Rank"; "Bank name"; "Market cap"];
                            ["1"; "Bank B"; "abc"]; ["2"; "Bank C"; "-5"] ]])
      "url" TABLE_ATTRIBUTES (sample_world (Response 200 "page") ∅)
    = (Raise (ValueError "No valid data found"), w')
    /\ w_heap w' = [].
Proof.
  apply (extract_no_valid_rows_fails "" _ "url" TABLE_ATTRIBUTES
           (sample_world (Response 200 "page") ∅) 200 "page" _ []
           eq_refl eq_refl eq_refl).
  intros cols Hin. cbn [tail] in Hin.
  apply elem_of_cons in Hin as [-> | Hin]; [by vm_compute |].
  apply elem_of_cons in Hin as [-> | Hin]; [by vm_compute |].
  by apply elem_of_nil in Hin.
Defined.




Lemma transform_default_rates_witness :
  exists frame',
    (transform "" (fun _ => Raise (ValueError "not read")) 0 "exchange_rate.csv"
       (world_with sample_frame ∅)).1 = Ok 0%nat
    /\ add_currencies sample_frame DEFAULT_EXCHANGE_RATES currency_steps = (Ok tt, frame')
    /\ df_lookup frame' "MC_GBP_Billion"
       = Some [PFloat (float_of_Z 80); PFloat (float_of_Z 40)].
Proof.
  destruct (transform_default_rates "" (fun _ => Raise (ValueError "not read"))
              0 "exchange_rate.csv" (world_with sample_frame ∅)
              sample_frame [float_of_Z 100; float_of_Z 50])
    as (frame' & Hrun & Hsteps & Hg & _).
  - reflexivity.
  - split; [reflexivity | repeat constructor].
  - by vm_compute.
  - by vm_compute.
  - exists frame'. rewrite Hrun. split; [reflexivity |]. split; [exact Hsteps |].
    rewrite Hg. by vm_compute.
Defined.

Lemma transform_frame_effect_witness :
  exists frame',
    w_heap (transform "" (fun _ => Raise (ValueError "not read")) 0
              "exchange_rate.csv" (world_with sample_frame ∅)).2
    = [frame']
    /\ df_lookup frame' "Name" = Some [PStr "Bank A"; PStr "Bank D"]
    /\ df_lookup frame' "MC_USD_Billion"
       = Some [PFloat (float_of_Z 100); PFloat (float_of_Z 50)].
Proof.
  destruct (transform_frame_effect "" (fun _ => Raise (ValueError "not read"))
              0 "exchange_rate.csv" (world_with sample_frame ∅) sample_frame eq_refl)
    as (frame' & Hheap & Hcols & Husd & _).
  exists frame'. split; [exact Hheap |]. split; [| exact Husd].
  rewrite Hcols; [reflexivity |].
  unfold currency_steps. cbn. rewrite !elem_of_cons, elem_of_nil.
  intros [H | [H | [H | []]]]; discriminate H.
Defined.

(** C5, the claim as stated fails: after [transform] the very object that
    was passed in holds three more columns. *)
Lemma transform_mutates_input_counterexample :
  let w := world_with sample_frame ∅ in
  let w' := (transform "" (fun _ => Raise (ValueError "not read")) 0
               "exchange_rate.csv" w).2 in
  w_heap w !! 0%nat = Some sample_frame
  /\ w_heap w' !! 0%nat
     = Some (sample_frame ++
             [ ("MC_GBP_Billion", [PFloat (float_of_Z 80); PFloat (float_of_Z 40)]);
               ("MC_EUR_Billion", [PFloat (float_of_Z 93);
                                   PFloat (float_of_decimal false 465 (-1))]);
               ("MC_INR_Billion", [PFloat (float_of_Z 8295);
                                   PFloat (float_of_decimal false 41475 (-1))]) ])%list
  /\ w_heap w' !! 0%nat <> w_heap w !! 0%nat.
Proof.
  split; [reflexivity |].
  split; [by vm_compute |].
  vm_compute. discriminate.
Qed.




(** ** The further theorems at concrete inputs *)

Lemma extract_request_failure_witness :
  extract "" (fun _ => []) "url" TABLE_ATTRIBUTES
    (sample_world (Unreachable "offline") ∅)
  = (Raise (RequestException "offline"),
     logged "" "Connection error: offline" None
       (logged "" "Starting data extraction from Wikipedia..." None
          (sample_world (Unreachable "offline") ∅)))
  /\ exists e,
       is_RequestException e = true
       /\ (extract "" (fun _ => []) "url" TABLE_ATTRIBUTES
             (sample_world (Response 503 "busy") ∅)).1 = Raise e.
Proof.
  split.
  - apply (proj1 (extract_request_failure "" (fun _ => []) "url" TABLE_ATTRIBUTES
                    (sample_world (Unreachable "offline") ∅)) "offline" eq_refl).
  - destruct (proj2 (extract_request_failure "" (fun _ => []) "url" TABLE_ATTRIBUTES
                       (sample_world (Response 503 "busy") ∅)) 503 "busy" eq_refl)
      as (e & He & Hrun); [lia |].
    exists e. split; [exact He | by rewrite Hrun].
Defined.

Lemma extract_no_table_witness :
  extract "" (fun _ => []) "url" TABLE_ATTRIBUTES (sample_world (Response 200 "page") ∅)
  = (Raise (ValueError "Required tables not found"),
     logged "" "Extraction error: Required tables not found" None
       (logged "" "Starting data extraction from Wikipedia..." None
          (sample_world (Response 200 "page") ∅))).
Proof.
  apply (extract_no_table "" (fun _ => []) "url" TABLE_ATTRIBUTES
           (sample_world (Response 200 "page") ∅) 200 "page" eq_refl eq_refl eq_refl).
Defined.

Lemma extract_wrong_label_count_witness :
  exists msg w',
    extract "" (fun _ => [sample_table]) "url" ["Name"]
      (sample_world (Response 200 "page") ∅) = (Raise (ValueError msg), w')
    /\ w_heap w' = [].
Proof.
  apply (extract_wrong_label_count "" (fun _ => [sample_table]) "url" ["Name"]
           (sample_world (Response 200 "page") ∅) 200 "page" sample_table []
           eq_refl eq_refl eq_refl).
  - exists ["1"; "Bank A"; "100"]. split; [left | eexists; vm_compute; reflexivity].
  - cbn. lia.
Defined.

Lemma extract_ignores_header_witness :
  (extract "" two_soups "a" TABLE_ATTRIBUTES (two_pages "A" "B")).1
  = (extract "" two_soups "b" TABLE_ATTRIBUTES (two_pages "A" "B")).1
  /\ w_heap (extract "" two_soups "a" TABLE_ATTRIBUTES (two_pages "A" "B")).2
     = w_heap (extract "" two_soups "b" TABLE_ATTRIBUTES (two_pages "A" "B")).2.
Proof.
  apply (extract_ignores_header "" two_soups "a" "b" TABLE_ATTRIBUTES
           (two_pages "A" "B") 200 200 "A" "B"
           ["Rank"; "Bank name"; "Market cap (US$ billion)"] ["#"; "Bank"; "Cap"]
           (scenario_rows "1" "2" "3" "4") [] []); reflexivity.
Defined.

Lemma extract_then_transform_witness :
  let w := sample_world (Response 200 "page") ∅ in
  let w1 := (extract "" (fun _ => [sample_table]) "url" TABLE_ATTRIBUTES w).2 in
  exists frame',
    (transform "" (fun _ => Raise (ValueError "not read")) 0 "exchange_rate.csv" w1).1
    = Ok 0%nat
    /\ w_heap (transform "" (fun _ => Raise (ValueError "not read")) 0
                 "exchange_rate.csv" w1).2 !! 0%nat = Some frame'
    /\ frame'.*1 = ["Name"; "MC_USD_Billion"; "MC_GBP_Billion"; "MC_EUR_Billion";
                    "MC_INR_Billion"]
    /\ df_wf frame' /\ (0 < df_len frame')%nat.
Proof.
  intros w w1.
  apply (extract_then_transform "" (fun _ => [sample_table])
           (fun _ => Raise (ValueError "not read")) "url" "exchange_rate.csv"
           w 0%nat w1 DEFAULT_EXCHANGE_RATES
           (float_of_decimal false 8 (-1)) (float_of_decimal false 93 (-2))
           (float_of_decimal false 8295 (-2))).
  - by vm_compute.
  - by vm_compute.
  - by vm_compute.
  - reflexivity.
  - reflexivity.
  - reflexivity.
Defined.


Lemma transform_missing_usd_column_witness :
  let w := world_with [ ("Name", [PStr "Bank A"]) ] ∅ in
  (transform "" (fun _ => Raise (ValueError "not read")) 0 "exchange_rate.csv" w).1
  = Raise (KeyError "MC_USD_Billion")
  /\ w_heap (transform "" (fun _ => Raise (ValueError "not read")) 0
               "exchange_rate.csv" w).2 = w_heap w.
Proof.
  intros w.
  apply (transform_missing_usd_column "" (fun _ => Raise (ValueError "not read"))
           0%nat "exchange_rate.csv" w [ ("Name", [PStr "Bank A"]) ]
           DEFAULT_EXCHANGE_RATES).
  - reflexivity.
  - by vm_compute.
  - by vm_compute.
  - reflexivity.
Defined.


Lemma transform_twice_witness :
  let once := transform "" (fun _ => Raise (ValueError "not read")) 0
                "exchange_rate.csv" (world_with sample_frame ∅) in
  let twice := transform "" (fun _ => Raise (ValueError "not read")) 0
                 "exchange_rate.csv" once.2 in
  once.1 = Ok 0%nat /\ twice.1 = Ok 0%nat /\ w_heap twice.2 = w_heap once.2.
Proof.
  apply (transform_twice "" (fun _ => Raise (ValueError "not read"))
           0%nat "exchange_rate.csv" (world_with sample_frame ∅) sample_frame
           [float_of_Z 100; float_of_Z 50] DEFAULT_EXCHANGE_RATES
           (float_of_decimal false 8 (-1)) (float_of_decimal false 93 (-2))
           (float_of_decimal false 8295 (-2))).
  - reflexivity.
  - split; [reflexivity | repeat constructor].
  - by vm_compute.
  - by vm_compute.
  - reflexivity.
  - reflexivity.
  - reflexivity.
Defined.


Lemma load_to_db_closed_witness :
  let w := set_dbs {[ 0%nat := {| db_open := false; db_tables := ∅ |} ]}
             (world_with sample_frame ∅) in
  load_to_db "" 0 0 TABLE_NAME w
  = (Raise (DatabaseError "Cannot operate on a closed database."),
     logged "" "Database load error: Cannot operate on a closed database." None w).
Proof.
  intros w.
  apply (load_to_db_closed "" 0%nat 0%nat TABLE_NAME w sample_frame
           {| db_open := false; db_tables := ∅ |}).
  - reflexivity.
  - by vm_compute.
  - reflexivity.
Defined.

Lemma load_to_db_frame_witness :
  let w := set_dbs {[ 0%nat := {| db_open := true;
                                  db_tables := {[ "Rates" := empty_frame ]} |} ]}
             (world_with sample_frame ∅) in
  let w' := (load_to_db "" 0 0 TABLE_NAME w).2 in
  w_heap w' = [sample_frame]
  /\ w_dbs w' !! 1%nat = None
  /\ exists db', w_dbs w' !! 0%nat = Some db'
                 /\ db_tables db' !! "Rates" = Some empty_frame.
Proof.
  intros w w'. subst w'.
  destruct (load_to_db_frame "" 0%nat 0%nat TABLE_NAME w) as (Hheap & Hcons & Htables).
  split; [exact Hheap |].
  split; [rewrite (Hcons 1%nat); [by vm_compute | lia] |].
  destruct (Htables {| db_open := true; db_tables := {[ "Rates" := empty_frame ]} |})
    as (db' & Hdb' & Hother); [by vm_compute |].
  exists db'. split; [exact Hdb' |].
  rewrite (Hother "Rates"); [by vm_compute | discriminate].
Defined.

Lemma load_to_csv_writes_witness :
  let run := load_to_csv "" (fun _ => "Name,MC_USD_Billion") 0 "data/out.csv"
               (world_with sample_frame ∅) in
  run.1 = Ok tt
  /\ FS.lookup run.2 "data/out.csv" = Some (File "Name,MC_USD_Billion")
  /\ FS.lookup run.2 "data" = Some Dir.
Proof.
  apply (load_to_csv_writes "" (fun _ => "Name,MC_USD_Billion") 0%nat
           (world_with sample_frame ∅) sample_frame "dat" "a"%char "out.csv").
  - reflexivity.
  - reflexivity.
  - discriminate.
  - reflexivity.
  - left. reflexivity.
  - right. split; [by vm_compute | apply not_elem_of_empty].
  - vm_compute. discriminate.
  - apply not_elem_of_empty.
  - vm_compute. discriminate.
Defined.

Lemma run_query_closed_witness :
  let w := set_dbs {[ 0%nat := {| db_open := false; db_tables := ∅ |} ]}
             (world_with sample_frame ∅) in
  (run_query "" sample_read_sql sample_df_str "SELECT * FROM Largest_banks" 0 w).1
  = Raise (DatabaseError "Cannot operate on a closed database.")
  /\ w_console (run_query "" sample_read_sql sample_df_str
                  "SELECT * FROM Largest_banks" 0 w).2
     = [ nl ++ "Running Query: SELECT * FROM Largest_banks" ++ nl;
         "[OK] Query execution error: Cannot operate on a closed database." ].
Proof.
  intros w.
  rewrite (run_query_closed "" sample_read_sql sample_df_str
             "SELECT * FROM Largest_banks" 0%nat w).
  - split; [reflexivity | by vm_compute].
  - intros db Hdb. vm_compute in Hdb. by injection Hdb as <-.
Defined.


Lemma main_extract_failure_witness :
  let w := sample_world (Unreachable "offline") ∅ in
  exists w',
    main "" (fun _ => [sample_table]) (fun _ => Raise (ValueError "not read"))
      (fun _ => "Name,MC_USD_Billion") sample_connect sample_read_sql sample_df_str w
    = (Raise (RequestException "offline"), w')
    /\ w_heap w' = []
    /\ w_dbs w' = {[ 0%nat := {| db_open := true; db_tables := ∅ |} ]}.
Proof.
  intros w.
  destruct (main_extract_failure "" (fun _ => [sample_table])
              (fun _ => Raise (ValueError "not read"))
              (fun _ => "Name,MC_USD_Billion") sample_connect sample_read_sql
              sample_df_str w 0%nat
              (sample_connect DB_NAME (logged "" msg_init None w)).2
              (RequestException "offline") eq_refl)
    as (w2 & _ & Hrun & Hheap & Hdbs & _).
  - by vm_compute.
  - eexists. split; [exact Hrun |].
    split; [rewrite Hheap; by vm_compute | rewrite Hdbs; by vm_compute].
Defined.


(** ** The model at work *)

(** With a directory part, [load_to_csv] makes the missing directories and
    writes the file. *)
Example load_to_csv_creates_parents :
  let run := load_to_csv "" (fun _ => "Name,MC_USD_Billion") 0
               "data/out/Largest_banks_data.csv" (world_with sample_frame ∅) in
  run.1 = Ok tt
  /\ w_fs run.2 !! "data" = Some Dir
  /\ w_fs run.2 !! "data/out" = Some Dir
  /\ w_fs run.2 !! "data/out/Largest_banks_data.csv"
     = Some (File "Name,MC_USD_Billion").
Proof. by vm_compute. Qed.

(** A log file that cannot be opened (its path is a directory) does not
    stop [log_progress]; the failure goes to the console. *)
Example log_progress_unwritable :
  let run := log_progress "" "Step 1: Data Extraction" (Some "logs")
               (sample_world (Unreachable "offline") {[ "logs" := Dir ]}) in
  run.1 = Ok tt
  /\ w_console run.2
     = ["Logging error: [Errno 21] Is a directory: 'logs'"].
Proof. by vm_compute. Qed.

(** The conversion scenario: 100.0 at the rates 0.8, 0.93 and 82.95. *)
Example convert_scenario :
  np_round (fmul (float_of_Z 100) (float_of_decimal false 8 (-1))) 2 = float_of_Z 80
  /\ np_round (fmul (float_of_Z 100) (float_of_decimal false 93 (-2))) 2 = float_of_Z 93
  /\ np_round (fmul (float_of_Z 100) (float_of_decimal false 8295 (-2))) 2
     = float_of_Z 8295.
Proof. by vm_compute. Qed.

(** [float] on some market-cap texts. *)
Example float_of_str_samples :
  float_of_str "100" = Some (float_of_Z 100)
  /\ float_of_str "abc" = None
  /\ float_of_str "-5" = Some (SFopp (float_of_Z 5))
  /\ float_of_str " 1_000.5 " = Some (float_of_decimal false 10005 (-1))
  /\ float_of_str "1e3" = Some (float_of_Z 1000)
  /\ float_of_str "nan" = Some S754_nan
  /\ float_of_str "1,5" = None
  /\ float_of_str "" = None.
Proof. by vm_compute. Qed.
